(** * md2slides: slide segmentation and the gist gateway

    A shallow embedding of
      - [parseSlides] of [src/components/SlidePreview.tsx] (exported as
        [useSlides]) and its private copy in [src/components/LandingPage.tsx];
      - the five [/api/gist/...] routes of [src/index.ts].

    JavaScript strings are sequences of UTF-16 code units; they are modelled
    as lists of [N]. *)

From Stdlib Require Import String Ascii.
From Stdlib Require Import List Arith NArith ZArith Lia Bool.
Import ListNotations.
Local Open Scope N_scope.
Local Open Scope list_scope.

(** ** JavaScript strings *)

Definition jsstring := list N.

(** An ASCII literal as a JavaScript string. *)
Definition u (s : string) : jsstring :=
  map N_of_ascii (list_ascii_of_string s).

Definition LF : N := 10.
Definition HASH : N := 35.
Definition SPACE : N := 32.
Definition SEMICOLON : N := 59.
Definition EQUALS : N := 61.

Fixpoint str_eqb (a b : jsstring) : bool :=
  match a, b with
  | [], [] => true
  | x :: a', y :: b' => (x =? y) && str_eqb a' b'
  | _, _ => false
  end.

(** A string is falsy exactly when it is empty. *)
Definition truthy (s : jsstring) : bool :=
  match s with [] => false | _ :: _ => true end.

(** ECMAScript [WhiteSpace] and [LineTerminator] code units, the ones
    [String.prototype.trim] strips. *)
Definition is_space (c : N) : bool :=
  (c =? 9) || (c =? 10) || (c =? 11) || (c =? 12) || (c =? 13) || (c =? 32)
  || (c =? 160) || (c =? 5760) || ((8192 <=? c) && (c <=? 8202))
  || (c =? 8232) || (c =? 8233) || (c =? 8239) || (c =? 8287)
  || (c =? 12288) || (c =? 65279).

Fixpoint trimStart (s : jsstring) : jsstring :=
  match s with
  | [] => []
  | c :: s' => if is_space c then trimStart s' else s
  end.

Definition trimEnd (s : jsstring) : jsstring := rev (trimStart (rev s)).

(** [s.trim()] *)
Definition trim (s : jsstring) : jsstring := trimEnd (trimStart s).

(** [s.split(sep)] for a separator of one code unit: the first piece and the
    pieces after it. *)
Fixpoint split_pieces (sep : N) (s : jsstring) : jsstring * list jsstring :=
  match s with
  | [] => ([], [])
  | c :: s' =>
      let (piece, pieces) := split_pieces sep s' in
      if c =? sep then ([], piece :: pieces) else (c :: piece, pieces)
  end.

Definition split (sep : N) (s : jsstring) : list jsstring :=
  let (piece, pieces) := split_pieces sep s in piece :: pieces.

(** [pieces.join(sep)] for an array of strings. *)
Fixpoint join (sep : N) (pieces : list jsstring) : jsstring :=
  match pieces with
  | [] => []
  | [p] => p
  | p :: rest => p ++ sep :: join sep rest
  end.

Fixpoint startsWith (prefix s : jsstring) : bool :=
  match prefix, s with
  | [], _ => true
  | p :: prefix', c :: s' => (p =? c) && startsWith prefix' s'
  | _ :: _, [] => false
  end.

(** [/^#{1,2} /.test(line)]: anchored at the start of the line, the greedy
    quantifier tries two [#] and then one, each followed by a space. *)
Definition heading_re_test (line : jsstring) : bool :=
  startsWith (repeat HASH 2 ++ [SPACE]) line
  || startsWith (repeat HASH 1 ++ [SPACE]) line.

(** ** The slide segmenter *)

(** [if (current.length > 0) { slides.push(current.join("\n")); }], in the
    loop and after it, in both [parseSlides]; [push] appends at the end. *)
Definition flush (slides : list jsstring) (current : list jsstring)
  : list jsstring :=
  if (0 <? length current)%nat then slides ++ [join LF current] else slides.

Module SlidePreview.

Definition placeholder : jsstring :=
  u "# Welcome" ++ [LF; LF] ++ u "No content to display".

(** The body of [for (const line of lines)]; the loop state is
    [(slides, current)]. *)
Definition loop_body (st : list jsstring * list jsstring) (line : jsstring)
  : list jsstring * list jsstring :=
  let (slides, current) := st in
  if heading_re_test line then (flush slides current, [line])
  else (slides, current ++ [line]).

Definition parseSlides (text : jsstring) : list jsstring :=
  if negb (truthy (trim text)) then [placeholder]
  else
    let lines := split LF text in
    let (slides, current) := fold_left loop_body lines ([], []) in
    let slides := flush slides current in
    if (0 <? length slides)%nat then slides else [placeholder].

(** [useSlides] is the exported name. *)
Definition useSlides (content : jsstring) : list jsstring :=
  parseSlides content.

End SlidePreview.

Module LandingPage.

Definition placeholder : jsstring := u "# Welcome".

Definition loop_body (st : list jsstring * list jsstring) (line : jsstring)
  : list jsstring * list jsstring :=
  let (slides, current) := st in
  if heading_re_test line then (flush slides current, [line])
  else (slides, current ++ [line]).

Definition parseSlides (text : jsstring) : list jsstring :=
  let lines := split LF text in
  let (slides, current) := fold_left loop_body lines ([], []) in
  let slides := flush slides current in
  if (0 <? length slides)%nat then slides else [placeholder].

End LandingPage.

(** ** The gist gateway ([src/index.ts]) *)

(** *** Objects and arrays *)

(** [obj[key]] on an object given by its entries; a key set twice keeps its
    last value ([Object.fromEntries], [JSON.parse]). *)
Fixpoint prop_get {A : Type} (key : jsstring) (entries : list (jsstring * A))
  : option A :=
  match entries with
  | [] => None
  | (k, v) :: rest =>
      match prop_get key rest with
      | Some v' => Some v'
      | None => if str_eqb k key then Some v else None
      end
  end.

(** [ids.includes(id)] on an array of strings. *)
Definition includes (ids : list jsstring) (id : jsstring) : bool :=
  existsb (fun x => str_eqb x id) ids.

(** [x || y] on strings that may be undefined. *)
Definition or_else (x : option jsstring) (y : jsstring) : jsstring :=
  match x with
  | Some s => if truthy s then s else y
  | None => y
  end.

(** [!!x] *)
Definition truthy_opt (x : option jsstring) : bool :=
  match x with Some s => truthy s | None => false end.

(** *** The platform

    The built-in functions the routes call. JSON values are read at the type
    the routes use them at: the ownership cookie as [string[]] (the
    callbacks are annotated [(gistId: string)] and [(id: string)]) and
    [metadata.json] as an object with an optional [title] string. [None]
    is a thrown exception.

    [encodeURIComponent] raises only on lone surrogates, which
    [JSON.stringify] escapes; it is applied to [JSON.stringify] output only
    and is modelled as total. *)
Record platform := {
  decodeURIComponent : jsstring -> option jsstring;
  encodeURIComponent : jsstring -> jsstring;
  JSON_parse_ids : jsstring -> option (list jsstring);
  JSON_stringify_ids : list jsstring -> jsstring;
  (** [JSON.parse(content).title]: [None] when the parse or the property
      read throws, [Some None] when there is no title. *)
  JSON_parse_title : jsstring -> option (option jsstring)
}.

(** *** Requests to, and replies from, the gist API *)

Inductive http_method := GET | POST | PATCH | DELETE.

(** [gistData] of the save route; [metadata.json] is kept as the object that
    is stringified into it. *)
Record gistData := {
  description : jsstring;
  public : bool;
  presentation_md : option jsstring;
  metadata_title : option jsstring;
  metadata_createdAt : jsstring;
  metadata_updatedAt : jsstring
}.

Record fetch_req := {
  url : jsstring;
  method : http_method;
  headers : list (jsstring * jsstring);
  body : option gistData
}.

(** The gist object of a reply, at the fields the routes read; [files] maps
    a file name to the file's [content]. *)
Record gist_json := {
  gist_id : jsstring;
  gist_html_url : jsstring;
  gist_description : jsstring;
  gist_updated_at : jsstring;
  gist_files : list (jsstring * jsstring)
}.

(** A reply: [response.status] and what [await response.text()] and
    [await response.json()] give ([None]: the promise rejects). *)
Record reply := {
  status : N;
  text : option jsstring;
  json : option gist_json
}.

(** [response.ok] *)
Definition ok (r : reply) : bool := (200 <=? status r) && (status r <=? 299).

(** What [await fetch(...)] ends in: a rejection (network failure) or a
    reply. *)
Inductive fetch_outcome :=
| NetworkError
| Reply (r : reply).

(** *** Responses of the routes *)

Record gist_entry := {
  entry_id : jsstring;
  entry_title : jsstring;
  entry_description : jsstring;
  entry_updatedAt : jsstring;
  entry_url : jsstring
}.

Inductive response_body :=
| ErrorBody (error : jsstring)                   (* {error} *)
| SavedBody (url id : jsstring) (updated : bool) (* {url, id, updated} *)
| GistsBody (gists : list gist_entry)            (* {gists} *)
| SuccessBody                                    (* {success: true} *)
| OwnedBody (owned : bool)                       (* {owned} *)
| LoadedBody (content title : jsstring).         (* {content, title} *)

(** Every response carries a JSON body; [Set-Cookie] is the one other
    header the routes set. *)
Record http_response := {
  resp_status : N;
  resp_set_cookie : option jsstring;
  resp_body : response_body
}.

(** [Response.json(body, {status})] *)
Definition Response_json (b : response_body) (st : N) : http_response :=
  {| resp_status := st; resp_set_cookie := None; resp_body := b |}.

(** *** Asynchronous code

    A route is a tree of [fetch] calls: each [await fetch(req)] hands the
    outcome to the continuation; [Throw] is an exception on its way to the
    enclosing [catch]. *)
Inductive prog (A : Type) : Type :=
| Ret (a : A)
| Throw
| Fetch (req : fetch_req) (k : fetch_outcome -> prog A).

Arguments Ret {A} a.
Arguments Throw {A}.
Arguments Fetch {A} req k.

Fixpoint bind {A B : Type} (p : prog A) (f : A -> prog B) : prog B :=
  match p with
  | Ret a => f a
  | Throw => Throw
  | Fetch req k => Fetch req (fun o => bind (k o) f)
  end.

Notation "x <- p ;; q" := (bind p (fun x => q))
  (at level 61, p at next level, right associativity).
Notation "' pat <- p ;; q" := (bind p (fun x => match x with pat => q end))
  (at level 61, pat pattern, p at next level, right associativity).

(** [try { p } catch { handler }] *)
Fixpoint try_catch {A : Type} (p : prog A) (handler : prog A) : prog A :=
  match p with
  | Ret a => Ret a
  | Throw => handler
  | Fetch req k => Fetch req (fun o => try_catch (k o) handler)
  end.

(** A value that may have thrown. *)
Definition lift {A : Type} (x : option A) : prog A :=
  match x with Some a => Ret a | None => Throw end.

(** [await fetch(req)] *)
Definition fetch (req : fetch_req) : prog reply :=
  Fetch req (fun o => match o with NetworkError => Throw | Reply r => Ret r end).

(** [await Promise.all(ps)]: the callbacks of [ownedGists.map] issue their
    requests in array order and share no state; the result keeps the array
    order. *)
Fixpoint Promise_all {A : Type} (ps : list (prog A)) : prog (list A) :=
  match ps with
  | [] => Ret []
  | p :: rest => a <- p ;; l <- Promise_all rest ;; Ret (a :: l)
  end.

(** [.filter(g => g !== null)] *)
Fixpoint filter_non_null {A : Type} (l : list (option A)) : list A :=
  match l with
  | [] => []
  | Some a :: rest => a :: filter_non_null rest
  | None :: rest => filter_non_null rest
  end.

(** Running a route against a remote: [respond] answers a request in the
    remote's state [w] and gives the next state. *)
Fixpoint run {W A : Type} (respond : W -> fetch_req -> fetch_outcome * W)
  (p : prog A) (w : W) : option A * W :=
  match p with
  | Ret a => (Some a, w)
  | Throw => (None, w)
  | Fetch req k => let (o, w') := respond w req in run respond (k o) w'
  end.

(** *** The routes *)

(** [GITHUB_TOKEN] (the environment variable, or the empty string), and the
    two [new Date().toISOString()] reads of a save. *)
Record env := {
  GITHUB_TOKEN : jsstring;
  now_createdAt : jsstring;
  now_updatedAt : jsstring
}.

(** [{ title, content, gistId }] of the save route's request body; a field
    is [None] when undefined. *)
Record save_body := {
  title : option jsstring;
  content : option jsstring;
  gistId : option jsstring
}.

(** A request: [req.headers.get("cookie")], [await req.json()] ([None]: it
    rejects) and [req.params.id]. *)
Record request := {
  req_cookie : option jsstring;
  req_json : option save_body;
  req_params_id : jsstring
}.

Definition GISTS_URL : jsstring := u "https://api.github.com/gists".

Definition gist_url (gistId : jsstring) : jsstring :=
  GISTS_URL ++ u "/" ++ gistId.

Definition read_headers (e : env) : list (jsstring * jsstring) :=
  [ (u "Authorization", u "token " ++ GITHUB_TOKEN e);
    (u "User-Agent", u "md2slides") ].

Definition write_headers (e : env) : list (jsstring * jsstring) :=
  [ (u "Authorization", u "token " ++ GITHUB_TOKEN e);
    (u "Content-Type", u "application/json");
    (u "User-Agent", u "md2slides") ].

(** [Object.fromEntries(cookieHeader.split(";").map(c => { const [key, ...v]
    = c.trim().split("="); return [key, v.join("=")]; }).filter(([k]) => k))].
    [split] gives at least one piece; an undefined [key] would be dropped by
    the filter like the empty one. *)
Definition parse_cookies (cookieHeader : jsstring)
  : list (jsstring * jsstring) :=
  filter (fun kv => truthy (fst kv))
    (map (fun c =>
            match split EQUALS (trim c) with
            | key :: v => (key, join EQUALS v)
            | [] => ([], [])
            end)
         (split SEMICOLON cookieHeader)).

(** [cookies.md2slides_owned ?
      JSON.parse(decodeURIComponent(cookies.md2slides_owned)) : []] *)
Definition owned_gists (P : platform) (req : request)
  : option (list jsstring) :=
  let cookieHeader := or_else (req_cookie req) [] in
  let cookies := parse_cookies cookieHeader in
  match prop_get (u "md2slides_owned") cookies with
  | Some v =>
      if truthy v then
        match decodeURIComponent P v with
        | Some d => JSON_parse_ids P d
        | None => None
        end
      else Some []
  | None => Some []
  end.

(** The [Set-Cookie] value of the save and delete routes. *)
Definition set_cookie_header (P : platform) (ids : list jsstring) : jsstring :=
  u "md2slides_owned=" ++ encodeURIComponent P (JSON_stringify_ids P ids)
  ++ u "; Path=/; Max-Age=31536000; SameSite=Lax".

Definition create_req (e : env) (d : gistData) : fetch_req :=
  {| url := GISTS_URL; method := POST;
     headers := write_headers e; body := Some d |}.

Definition update_req (e : env) (id : jsstring) (d : gistData) : fetch_req :=
  {| url := gist_url id; method := PATCH;
     headers := write_headers e; body := Some d |}.

(** [fetch] with no [method] is a GET. *)
Definition read_req (e : env) (id : jsstring) : fetch_req :=
  {| url := gist_url id; method := GET;
     headers := read_headers e; body := None |}.

Definition delete_req (e : env) (id : jsstring) : fetch_req :=
  {| url := gist_url id; method := DELETE;
     headers := read_headers e; body := None |}.

Definition make_gistData (e : env) (b : save_body) : gistData :=
  {| description := or_else (title b) (u "md2slides presentation");
     public := false;
     presentation_md := content b;
     metadata_title := title b;
     metadata_createdAt := now_createdAt e;
     metadata_updatedAt := now_updatedAt e |}.

(** POST /api/gist/save. Console output is not modelled. *)
Definition save_POST (P : platform) (e : env) (req : request)
  : prog http_response :=
  if negb (truthy (GITHUB_TOKEN e)) then
    Ret (Response_json (ErrorBody (u "GitHub token not configured")) 500)
  else
    try_catch
      (b <- lift (req_json req) ;;
       let gistData := make_gistData e b in
       '(response, finalGistId) <-
         (if truthy_opt (gistId b) then
            response <- fetch (update_req e (or_else (gistId b) []) gistData) ;;
            if negb (ok response) then
              response <- fetch (create_req e gistData) ;;
              Ret (response, None)
            else Ret (response, gistId b)
          else
            response <- fetch (create_req e gistData) ;;
            Ret (response, gistId b)) ;;
       if negb (ok response) then
         _ <- lift (text response) ;;
         Ret (Response_json (ErrorBody (u "Failed to save gist"))
                (status response))
       else
         result <- lift (json response) ;;
         let resultId := or_else finalGistId (gist_id result) in
         ownedGists <- lift (owned_gists P req) ;;
         let ownedGists :=
           if negb (includes ownedGists resultId)
           then ownedGists ++ [resultId] else ownedGists in
         Ret {| resp_status := 200;
                resp_set_cookie := Some (set_cookie_header P ownedGists);
                resp_body := SavedBody (gist_html_url result) resultId
                               (truthy_opt finalGistId) |})
      (Ret (Response_json (ErrorBody (u "Failed to save to gist")) 500)).

Definition default_title : jsstring := u "Untitled Presentation".

(** [let title = "Untitled Presentation"; if (gist.files["metadata.json"])
    { try { title = JSON.parse(...content).title || title } catch {} }], the
    same in the list and load routes. *)
Definition title_of (P : platform) (files : list (jsstring * jsstring))
  : jsstring :=
  match prop_get (u "metadata.json") files with
  | Some c =>
      match JSON_parse_title P c with
      | Some t => or_else t default_title
      | None => default_title
      end
  | None => default_title
  end.

(** The callback of [ownedGists.map] in the list route. *)
Definition list_entry (P : platform) (e : env) (gistId : jsstring)
  : prog (option gist_entry) :=
  try_catch
    (response <- fetch (read_req e gistId) ;;
     if negb (ok response) then Ret None
     else
       gist <- lift (json response) ;;
       Ret (Some {| entry_id := gist_id gist;
                    entry_title := title_of P (gist_files gist);
                    entry_description := gist_description gist;
                    entry_updatedAt := gist_updated_at gist;
                    entry_url := gist_html_url gist |}))
    (Ret None).

(** GET /api/gist/list *)
Definition list_GET (P : platform) (e : env) (req : request)
  : prog http_response :=
  if negb (truthy (GITHUB_TOKEN e)) then
    Ret (Response_json (GistsBody []) 200)
  else
    try_catch
      (ownedGists <- lift (owned_gists P req) ;;
       if (length ownedGists =? 0)%nat then
         Ret (Response_json (GistsBody []) 200)
       else
         gists <- Promise_all (map (list_entry P e) ownedGists) ;;
         Ret (Response_json (GistsBody (filter_non_null gists)) 200))
      (Ret (Response_json (GistsBody []) 200)).

(** DELETE /api/gist/delete/:id *)
Definition delete_DELETE (P : platform) (e : env) (req : request)
  : prog http_response :=
  if negb (truthy (GITHUB_TOKEN e)) then
    Ret (Response_json (ErrorBody (u "GitHub token not configured")) 500)
  else
    try_catch
      (let gistId := req_params_id req in
       response <- fetch (delete_req e gistId) ;;
       if negb (ok response) && negb (status response =? 404) then
         Ret (Response_json (ErrorBody (u "Failed to delete gist"))
                (status response))
       else
         ownedGists <- lift (owned_gists P req) ;;
         let updatedGists :=
           filter (fun id => negb (str_eqb id gistId)) ownedGists in
         Ret {| resp_status := 200;
                resp_set_cookie := Some (set_cookie_header P updatedGists);
                resp_body := SuccessBody |})
      (Ret (Response_json (ErrorBody (u "Failed to delete gist")) 500)).

(** GET /api/gist/check-ownership/:id *)
Definition check_ownership_GET (P : platform) (req : request)
  : prog http_response :=
  try_catch
    (let gistId := req_params_id req in
     ownedGists <- lift (owned_gists P req) ;;
     Ret (Response_json (OwnedBody (includes ownedGists gistId)) 200))
    (Ret (Response_json (OwnedBody false) 200)).

(** GET /api/gist/load/:id *)
Definition load_GET (P : platform) (e : env) (req : request)
  : prog http_response :=
  if negb (truthy (GITHUB_TOKEN e)) then
    Ret (Response_json (ErrorBody (u "GitHub token not configured")) 500)
  else
    try_catch
      (let gistId := req_params_id req in
       response <- fetch (read_req e gistId) ;;
       if negb (ok response) then
         Ret (Response_json (ErrorBody (u "Gist not found")) (status response))
       else
         gist <- lift (json response) ;;
         let content :=
           or_else (prop_get (u "presentation.md") (gist_files gist)) [] in
         Ret (Response_json (LoadedBody content (title_of P (gist_files gist)))
                200))
      (Ret (Response_json (ErrorBody (u "Failed to load from gist")) 500)).

(** The [routes] table of [serve]. *)
Inductive route := SaveRoute | ListRoute | DeleteRoute | CheckOwnershipRoute
                 | LoadRoute.

Definition handle (P : platform) (e : env) (rt : route) (req : request)
  : prog http_response :=
  match rt with
  | SaveRoute => save_POST P e req
  | ListRoute => list_GET P e req
  | DeleteRoute => delete_DELETE P e req
  | CheckOwnershipRoute => check_ownership_GET P req
  | LoadRoute => load_GET P e req
  end.

(** ** The editor ([EditorPage], the caller of the routes)

    The JSON of a route's response, as the pages read it: [data.content],
    [data.title], [data.id] and [ownership.owned]; a field the body does not
    have is undefined. *)
Definition json_content (b : response_body) : option jsstring :=
  match b with LoadedBody c _ => Some c | _ => None end.

Definition json_title (b : response_body) : option jsstring :=
  match b with LoadedBody _ t => Some t | _ => None end.

Definition json_id (b : response_body) : option jsstring :=
  match b with SavedBody _ id _ => Some id | _ => None end.

Definition json_owned (b : response_body) : bool :=
  match b with OwnedBody o => o | _ => false end.

Module EditorPage.

(** The React state the handlers below set; [currentGistId] is [null] or
    a string. *)
Record state := {
  st_content : jsstring;
  st_title : jsstring;
  currentGistId : option jsstring;
  publishedUrl : jsstring;
  showPublishModal : bool
}.

(** The [.then(([data, ownership]) => ...)] of the load effect. *)
Definition loaded (gistId : jsstring) (data ownership : response_body)
  (st : state) : state :=
  if truthy_opt (json_content data) then
    {| st_content := or_else (json_content data) [];
       st_title := or_else (json_title data) (u "Loaded from Gist");
       currentGistId := if json_owned ownership then Some gistId else None;
       publishedUrl := publishedUrl st;
       showPublishModal := showPublishModal st |}
  else st.

(** The load effect for a [gistId] that is set: the two requests go to the
    routes with the browser's cookie; the [.catch] alerts and leaves the
    state alone. *)
Definition load_effect (P : platform) (e : env) (cookie : option jsstring)
  (gistId : jsstring) (st : state) : prog state :=
  try_catch
    (data <- load_GET P e
               {| req_cookie := cookie; req_json := None;
                  req_params_id := gistId |} ;;
     ownership <- check_ownership_GET P
                    {| req_cookie := cookie; req_json := None;
                       req_params_id := gistId |} ;;
     Ret (loaded gistId (resp_body data) (resp_body ownership) st))
    (Ret st).

(** [`${window.location.origin}/#/editor?gist=${id}`] *)
Definition shareUrl (origin id : jsstring) : jsstring :=
  origin ++ u "/#/editor?gist=" ++ id.

(** The request [handleShare] and the auto-save send to the save route. *)
Definition save_request (cookie : option jsstring) (st : state) : request :=
  {| req_cookie := cookie;
     req_json := Some {| title := Some (st_title st);
                         content := Some (st_content st);
                         gistId := currentGistId st |};
     req_params_id := [] |}.

(** [handleShare]: the new state, and the [window.location.hash] it sets if
    it sets one. *)
Definition handleShare (P : platform) (e : env) (origin : jsstring)
  (cookie : option jsstring) (st : state)
  : prog (state * option jsstring) :=
  if truthy_opt (currentGistId st) then
    Ret ({| st_content := st_content st;
            st_title := st_title st;
            currentGistId := currentGistId st;
            publishedUrl := shareUrl origin (or_else (currentGistId st) []);
            showPublishModal := true |}, None)
  else
    try_catch
      (response <- save_POST P e (save_request cookie st) ;;
       let data := resp_body response in
       if truthy_opt (json_id data) then
         let id := or_else (json_id data) [] in
         Ret ({| st_content := st_content st;
                 st_title := st_title st;
                 currentGistId := Some id;
                 publishedUrl := shareUrl origin id;
                 showPublishModal := true |},
              Some (u "/editor?gist=" ++ id))
       else Ret (st, None))
      (Ret (st, None)).

End EditorPage.

(** ** The gist list of the landing page *)

(** [response.ok] of a route's response, as the pages read it. *)
Definition response_ok (resp : http_response) : bool :=
  (200 <=? resp_status resp) && (resp_status resp <=? 299).

Module LandingPageGists.

(** [handleDeleteGist] once the user has confirmed: the new [userGists]. A
    response that is not [ok] and the [catch] alert and leave the list
    alone. *)
Definition handleDeleteGist (P : platform) (e : env)
  (cookie : option jsstring) (gistId : jsstring)
  (userGists : list gist_entry) : prog (list gist_entry) :=
  try_catch
    (response <- delete_DELETE P e
                   {| req_cookie := cookie; req_json := None;
                      req_params_id := gistId |} ;;
     if response_ok response then
       Ret (filter (fun g => negb (str_eqb (entry_id g) gistId)) userGists)
     else Ret userGists)
    (Ret userGists).

End LandingPageGists.

(** ** A reference platform

    The built-ins as ECMAScript defines them, used to evaluate the routes on
    concrete requests. The two parsers accept the JSON texts of the types
    above (an array of strings, an object whose members are strings) and
    report every other text as a failure. *)
Module Reference.

Definition is_high (c : N) : bool := (55296 <=? c) && (c <=? 56319).
Definition is_low (c : N) : bool := (56320 <=? c) && (c <=? 57343).

(** The code points of a string; a surrogate without its pair stands for
    itself. *)
Fixpoint code_points (s : jsstring) : list N :=
  match s with
  | [] => []
  | c :: rest =>
      match rest with
      | d :: rest' =>
          if is_high c && is_low d
          then (65536 + (c - 55296) * 1024 + (d - 56320)) :: code_points rest'
          else c :: code_points rest
      | [] => [c]
      end
  end.

Definition utf16 (cp : N) : jsstring :=
  if cp <? 65536 then [cp]
  else [55296 + (cp - 65536) / 1024; 56320 + (cp - 65536) mod 1024].

Definition utf8 (cp : N) : list N :=
  if cp <? 128 then [cp]
  else if cp <? 2048 then [192 + cp / 64; 128 + cp mod 64]
  else if cp <? 65536 then
    [224 + cp / 4096; 128 + (cp / 64) mod 64; 128 + cp mod 64]
  else
    [240 + cp / 262144; 128 + (cp / 4096) mod 64;
     128 + (cp / 64) mod 64; 128 + cp mod 64].

Definition hex_upper (d : N) : N := if d <? 10 then 48 + d else 55 + d.
Definition hex_lower (d : N) : N := if d <? 10 then 48 + d else 87 + d.

Definition hex_val (c : N) : option N :=
  if (48 <=? c) && (c <=? 57) then Some (c - 48)
  else if (65 <=? c) && (c <=? 70) then Some (c - 55)
  else if (97 <=? c) && (c <=? 102) then Some (c - 87)
  else None.

(** [A-Z a-z 0-9 - _ . ! ~ * ' ( )] *)
Definition unreserved (c : N) : bool :=
  ((65 <=? c) && (c <=? 90)) || ((97 <=? c) && (c <=? 122))
  || ((48 <=? c) && (c <=? 57))
  || (c =? 45) || (c =? 95) || (c =? 46) || (c =? 33) || (c =? 126)
  || (c =? 42) || (c =? 39) || (c =? 40) || (c =? 41).

Definition percent (b : N) : jsstring :=
  [37; hex_upper (b / 16); hex_upper (b mod 16)].

(** A surrogate without its pair, on which the built-in raises, is encoded
    like any code point; [JSON.stringify] output has none. *)
Definition uri_encode (s : jsstring) : jsstring :=
  flat_map (fun cp => if unreserved cp then [cp] else flat_map percent (utf8 cp))
           (code_points s).

(** [QuoteJSONString] *)
Definition json_escape (cp : N) : jsstring :=
  if cp =? 8 then u "\b"
  else if cp =? 9 then u "\t"
  else if cp =? 10 then u "\n"
  else if cp =? 12 then u "\f"
  else if cp =? 13 then u "\r"
  else if cp =? 34 then [92; 34]
  else if cp =? 92 then [92; 92]
  else if (cp <? 32) || is_high cp || is_low cp then
    [92; 117; hex_lower (cp / 4096); hex_lower ((cp / 256) mod 16);
     hex_lower ((cp / 16) mod 16); hex_lower (cp mod 16)]
  else utf16 cp.

Definition json_quote (s : jsstring) : jsstring :=
  34 :: flat_map json_escape (code_points s) ++ [34].

(** [JSON.stringify] of an array of strings. *)
Definition stringify_ids (ids : list jsstring) : jsstring :=
  91 :: join 44 (map json_quote ids) ++ [93].

(** The escapes of a URI component: a code unit, or the octet of [%XX]. *)
Fixpoint uri_tokens (s : jsstring) : option (list (N + N)) :=
  match s with
  | [] => Some []
  | c :: rest =>
      if c =? 37 then
        match rest with
        | h1 :: h2 :: rest' =>
            match hex_val h1, hex_val h2, uri_tokens rest' with
            | Some a, Some b, Some ts => Some (inr (16 * a + b) :: ts)
            | _, _, _ => None
            end
        | _ => None
        end
      else option_map (cons (inl c)) (uri_tokens rest)
  end.

Definition continuation (b : N) : bool := (128 <=? b) && (b <=? 191).

Definition scalar (lo cp : N) : option jsstring :=
  if (lo <=? cp) && (cp <=? 1114111) && negb (is_high cp || is_low cp)
  then Some (utf16 cp) else None.

(** The octets must be UTF-8; every octet of a sequence is escaped. *)
Fixpoint utf8_decode (ts : list (N + N)) : option jsstring :=
  match ts with
  | [] => Some []
  | inl c :: rest => option_map (cons c) (utf8_decode rest)
  | inr b :: rest =>
      if b <? 128 then option_map (cons b) (utf8_decode rest)
      else if (192 <=? b) && (b <=? 223) then
        match rest with
        | inr b1 :: rest' =>
            if continuation b1 then
              match scalar 128 ((b - 192) * 64 + (b1 - 128)), utf8_decode rest' with
              | Some cs, Some r => Some (cs ++ r)
              | _, _ => None
              end
            else None
        | _ => None
        end
      else if (224 <=? b) && (b <=? 239) then
        match rest with
        | inr b1 :: inr b2 :: rest' =>
            if continuation b1 && continuation b2 then
              match scalar 2048 ((b - 224) * 4096 + (b1 - 128) * 64 + (b2 - 128)),
                    utf8_decode rest' with
              | Some cs, Some r => Some (cs ++ r)
              | _, _ => None
              end
            else None
        | _ => None
        end
      else if (240 <=? b) && (b <=? 247) then
        match rest with
        | inr b1 :: inr b2 :: inr b3 :: rest' =>
            if continuation b1 && continuation b2 && continuation b3 then
              match scalar 65536 ((b - 240) * 262144 + (b1 - 128) * 4096
                                  + (b2 - 128) * 64 + (b3 - 128)),
                    utf8_decode rest' with
              | Some cs, Some r => Some (cs ++ r)
              | _, _ => None
              end
            else None
        | _ => None
        end
      else None
  end.

Definition uri_decode (s : jsstring) : option jsstring :=
  match uri_tokens s with
  | Some ts => utf8_decode ts
  | None => None
  end.

(** JSON white space. *)
Definition json_ws (c : N) : bool :=
  (c =? 32) || (c =? 9) || (c =? 10) || (c =? 13).

Fixpoint skip_ws (s : jsstring) : jsstring :=
  match s with
  | [] => []
  | c :: rest => if json_ws c then skip_ws rest else s
  end.

Definition simple_escape (c : N) : option N :=
  if c =? 34 then Some 34 else if c =? 92 then Some 92
  else if c =? 47 then Some 47 else if c =? 98 then Some 8
  else if c =? 102 then Some 12 else if c =? 110 then Some 10
  else if c =? 114 then Some 13 else if c =? 116 then Some 9
  else None.

(** A JSON string after its opening quote: its value and what follows the
    closing quote. *)
Fixpoint json_string_tail (s : jsstring) : option (jsstring * jsstring) :=
  match s with
  | [] => None
  | c :: rest =>
      if c =? 34 then Some ([], rest)
      else if c =? 92 then
        match rest with
        | [] => None
        | e :: rest1 =>
            if e =? 117 then
              match rest1 with
              | a :: b :: c' :: d :: rest2 =>
                  match hex_val a, hex_val b, hex_val c', hex_val d,
                        json_string_tail rest2 with
                  | Some x, Some y, Some z, Some t, Some (v, r) =>
                      Some ((x * 4096 + y * 256 + z * 16 + t) :: v, r)
                  | _, _, _, _, _ => None
                  end
              | _ => None
              end
            else
              match simple_escape e, json_string_tail rest1 with
              | Some x, Some (v, r) => Some (x :: v, r)
              | _, _ => None
              end
        end
      else if c <? 32 then None
      else
        match json_string_tail rest with
        | Some (v, r) => Some (c :: v, r)
        | None => None
        end
  end.

(** A JSON string at the head of [s], white space skipped. *)
Definition json_string (s : jsstring) : option (jsstring * jsstring) :=
  match skip_ws s with
  | c :: rest => if c =? 34 then json_string_tail rest else None
  | [] => None
  end.

(** The elements of an array after its first bracket, up to the closing
    one. *)
Fixpoint json_strings (fuel : nat) (s : jsstring)
  : option (list jsstring * jsstring) :=
  match fuel with
  | O => None
  | S fuel' =>
      match json_string s with
      | Some (v, r) =>
          match skip_ws r with
          | c :: r' =>
              if c =? 44 then
                match json_strings fuel' r' with
                | Some (vs, r'') => Some (v :: vs, r'')
                | None => None
                end
              else if c =? 93 then Some ([v], r')
              else None
          | [] => None
          end
      | None => None
      end
  end.

Definition parse_ids (s : jsstring) : option (list jsstring) :=
  match skip_ws s with
  | c :: rest =>
      if c =? 91 then
        match skip_ws rest with
        | d :: rest' =>
            let items :=
              if d =? 93 then Some ([], rest')
              else json_strings (length rest) rest in
            match items with
            | Some (vs, r) => if truthy (skip_ws r) then None else Some vs
            | None => None
            end
        | [] => None
        end
      else None
  | [] => None
  end.

(** The members of an object after its first brace, up to the closing
    one. *)
Fixpoint json_members (fuel : nat) (s : jsstring)
  : option (list (jsstring * jsstring) * jsstring) :=
  match fuel with
  | O => None
  | S fuel' =>
      match json_string s with
      | Some (k, r) =>
          match skip_ws r with
          | c :: r1 =>
              if c =? 58 then
                match json_string r1 with
                | Some (v, r2) =>
                    match skip_ws r2 with
                    | d :: r3 =>
                        if d =? 44 then
                          match json_members fuel' r3 with
                          | Some (ms, r4) => Some ((k, v) :: ms, r4)
                          | None => None
                          end
                        else if d =? 125 then Some ([(k, v)], r3)
                        else None
                    | [] => None
                    end
                | None => None
                end
              else None
          | [] => None
          end
      | None => None
      end
  end.

Definition parse_title (s : jsstring) : option (option jsstring) :=
  match skip_ws s with
  | c :: rest =>
      if c =? 123 then
        match skip_ws rest with
        | d :: rest' =>
            let members :=
              if d =? 125 then Some ([], rest')
              else json_members (length rest) rest in
            match members with
            | Some (ms, r) =>
                if truthy (skip_ws r) then None
                else Some (prop_get (u "title") ms)
            | None => None
            end
        | [] => None
        end
      else None
  | [] => None
  end.

Definition P : platform :=
  {| decodeURIComponent := uri_decode;
     encodeURIComponent := uri_encode;
     JSON_parse_ids := parse_ids;
     JSON_stringify_ids := stringify_ids;
     JSON_parse_title := parse_title |}.

(** A remote that answers the requests it receives with the outcomes of a
    script, in order, and is unreachable once the script is over. *)
Definition scripted (w : list fetch_outcome) (req : fetch_req)
  : fetch_outcome * list fetch_outcome :=
  match w with
  | o :: rest => (o, rest)
  | [] => (NetworkError, [])
  end.

End Reference.

(** ** Slide navigation

    The slide index is a React state that starts at [0] and changes by the
    updates below; it is an integer. *)

(** [slides[i]]: undefined outside the array. *)
Definition at_index (slides : list jsstring) (i : Z) : option jsstring :=
  if (i <? 0)%Z then None else nth_error slides (Z.to_nat i).

(** The [SlidePreview] component ([src/components/SlidePreview.tsx]). *)
Module SlidePreviewComponent.

(** [Math.min(currentSlide, slides.length - 1)] *)
Definition safeSlideIndex (currentSlide : Z) (slides : list jsstring) : Z :=
  Z.min currentSlide (Z.of_nat (length slides) - 1).

(** The index [handlePrev] hands to [onSlideChange], if it calls it;
    [onSlideChange] tells whether the optional callback is given. *)
Definition handlePrev (onSlideChange : bool) (currentSlide : Z)
  (slides : list jsstring) : option Z :=
  let safeSlideIndex := safeSlideIndex currentSlide slides in
  if (0 <? safeSlideIndex)%Z && onSlideChange
  then Some (safeSlideIndex - 1)%Z else None.

Definition handleNext (onSlideChange : bool) (currentSlide : Z)
  (slides : list jsstring) : option Z :=
  let safeSlideIndex := safeSlideIndex currentSlide slides in
  if (safeSlideIndex <? Z.of_nat (length slides) - 1)%Z && onSlideChange
  then Some (safeSlideIndex + 1)%Z else None.

(** [disabled] of the two buttons. *)
Definition prev_disabled (currentSlide : Z) (slides : list jsstring) : bool :=
  (safeSlideIndex currentSlide slides =? 0)%Z.

Definition next_disabled (currentSlide : Z) (slides : list jsstring) : bool :=
  (Z.of_nat (length slides) - 1 <=? safeSlideIndex currentSlide slides)%Z.

(** The markdown handed to [marked.parse]: [slides[safeSlideIndex]], or the
    empty string. *)
Definition shown (content : jsstring) (currentSlide : Z) : jsstring :=
  let slides := SlidePreview.parseSlides content in
  or_else (at_index slides (safeSlideIndex currentSlide slides)) [].

End SlidePreviewComponent.

(** The [PresentPage] component ([src/components/PresentPage.tsx]). *)
Module PresentPage.

Inductive event :=
| KeyDown (key : jsstring)
| ClickPrevious
| ClickNext.

(** The update of [currentSlide] an event makes; [Escape] calls [onExit] and
    leaves the index alone, like the keys that are not handled. *)
Definition update (slides_length : Z) (ev : event) (prev : Z) : Z :=
  match ev with
  | KeyDown key =>
      if str_eqb key (u "ArrowRight") || str_eqb key (u " ")
      then Z.min (prev + 1) (slides_length - 1)
      else if str_eqb key (u "ArrowLeft") then Z.max (prev - 1) 0
      else prev
  | ClickPrevious => Z.max (prev - 1) 0
  | ClickNext => Z.min (prev + 1) (slides_length - 1)
  end.

Definition safeSlideIndex (currentSlide : Z) (slides : list jsstring) : Z :=
  Z.min currentSlide (Z.of_nat (length slides) - 1).

(** [slides[safeSlideIndex] || ""] *)
Definition slideContent (content : jsstring) (currentSlide : Z) : jsstring :=
  let slides := SlidePreview.useSlides content in
  or_else (at_index slides (safeSlideIndex currentSlide slides)) [].

End PresentPage.

(** The demo of the [LandingPage] component
    ([src/components/LandingPage.tsx]). *)
Module LandingPageComponent.

(** The update of the 5-second timer: [(prev + 1) % slides.length]. *)
Definition advance (slides_length : Z) (prev : Z) : Z :=
  Z.rem (prev + 1) slides_length.

(** [slides[currentSlide] || ""] *)
Definition slideSource (slides : list jsstring) (currentSlide : Z)
  : jsstring :=
  or_else (at_index slides currentSlide) [].

End LandingPageComponent.

(** ** Notions the statements use *)

(** An empty or white-space-only text. *)
Definition blank (text : jsstring) : bool := forallb is_space text.

(** Groups of consecutive lines cut at the heading lines: inside a group only
    the first line may be a heading, and every group after the first starts
    with one. *)
Definition cut_at_headings (groups : list (list jsstring)) : Prop :=
  Forall (fun g => Forall (fun l => heading_re_test l = false) (tl g)) groups
  /\ Forall (fun g => exists h t, g = h :: t /\ heading_re_test h = true)
            (tl groups).

(** The loop state whose emitted slides and accumulator are the given groups:
    the last group is the one being accumulated. *)
Definition state_of (groups : list (list jsstring))
  : list jsstring * list jsstring :=
  (map (join LF) (removelast groups), last groups []).

(** Sample requests and replies. *)
Module Sample.

Definition e : env :=
  {| GITHUB_TOKEN := u "ghp_token";
     now_createdAt := u "2024-05-01T10:00:00.000Z";
     now_updatedAt := u "2024-05-01T10:00:00.001Z" |}.

Definition deck (id : option jsstring) : save_body :=
  {| title := Some (u "Deck"); content := Some (u "# Deck"); gistId := id |}.

(** A save that names the gist [stale], from a browser that owns [old]. *)
Definition save_stale : request :=
  {| req_cookie := Some (u "theme=dark; md2slides_owned=%5B%22old%22%5D");
     req_json := Some (deck (Some (u "stale")));
     req_params_id := [] |}.

(** A first save, from a browser with no cookie. *)
Definition save_new : request :=
  {| req_cookie := None; req_json := Some (deck None); req_params_id := [] |}.

(** A request about the gist [id] with the given cookie header. *)
Definition about (id : jsstring) (cookie : option jsstring) : request :=
  {| req_cookie := cookie; req_json := None; req_params_id := id |}.

Definition refused (st : N) : reply :=
  {| status := st; text := Some (u "{}"); json := None |}.

Definition gist (id : jsstring) (files : list (jsstring * jsstring))
  : gist_json :=
  {| gist_id := id;
     gist_html_url := u "https://gist.github.com/" ++ id;
     gist_description := u "Deck";
     gist_updated_at := u "2024-05-01T10:00:01Z";
     gist_files := files |}.

Definition answered (st : N) (g : gist_json) : reply :=
  {| status := st; text := Some (u "{}"); json := Some g |}.

(** [metadata.json] as the save route writes it. *)
Definition metadata (t : jsstring) : jsstring :=
  u "{" ++ Reference.json_quote (u "title") ++ u ":"
  ++ Reference.json_quote t ++ u "}".

Definition titled (id t : jsstring) : gist_json :=
  gist id [(u "presentation.md", u "# " ++ t); (u "metadata.json", metadata t)].

Definition entry (id t : jsstring) : gist_entry :=
  {| entry_id := id;
     entry_title := t;
     entry_description := u "Deck";
     entry_updatedAt := u "2024-05-01T10:00:01Z";
     entry_url := u "https://gist.github.com/" ++ id |}.

(** A save that names no gist: the editor sends [gistId: null]; an empty
    string is as good. *)
Definition save_unnamed : request :=
  {| req_cookie := Some (u "md2slides_owned=%5B%22old%22%5D");
     req_json := Some (deck (Some []));
     req_params_id := [] |}.

(** An editor that is not bound to a gist. *)
Definition unbound : EditorPage.state :=
  {| EditorPage.st_content := u "# Deck";
     EditorPage.st_title := u "Deck";
     EditorPage.currentGistId := None;
     EditorPage.publishedUrl := [];
     EditorPage.showPublishModal := false |}.

End Sample.

(** The outcomes the remote gives when asked for each gist in turn, and its
    state afterwards. *)
Fixpoint ask_each {W : Type} (respond : W -> fetch_req -> fetch_outcome * W)
  (e : env) (ids : list jsstring) (w : W) : list fetch_outcome * W :=
  match ids with
  | [] => ([], w)
  | id :: rest =>
      let (o, w1) := respond w (read_req e id) in
      let (os, w2) := ask_each respond e rest w1 in
      (o :: os, w2)
  end.

(** A fetch resolves when it is answered with a success status and a body
    that reads as a gist; the entry listed for it. *)
Definition resolved (P : platform) (o : fetch_outcome) : option gist_entry :=
  match o with
  | NetworkError => None
  | Reply r =>
      if ok r then
        match json r with
        | Some gist =>
            Some {| entry_id := gist_id gist;
                    entry_title := title_of P (gist_files gist);
                    entry_description := gist_description gist;
                    entry_updatedAt := gist_updated_at gist;
                    entry_url := gist_html_url gist |}
        | None => None
        end
      else None
  end.

(** Every response a program can end in satisfies [Q]. *)
Fixpoint leaves {A : Type} (Q : A -> Prop) (p : prog A) : Prop :=
  match p with
  | Ret a => Q a
  | Throw => True
  | Fetch _ k => forall o, leaves Q (k o)
  end.

(** The shape of the ownership cookie's [Set-Cookie] header. *)
Definition ownership_cookie (P : platform) (h : jsstring) : Prop :=
  exists ids : list jsstring,
    h = u "md2slides_owned="
        ++ encodeURIComponent P (JSON_stringify_ids P ids)
        ++ u "; Path=/; Max-Age=31536000; SameSite=Lax".

(** Every request a program can send satisfies [Q]. *)
Fixpoint requests {A : Type} (Q : fetch_req -> Prop) (p : prog A) : Prop :=
  match p with
  | Ret _ => True
  | Throw => True
  | Fetch req k => Q req /\ forall o, requests Q (k o)
  end.

(** The [name=value] pair at the head of the ownership [Set-Cookie]. *)
Definition cookie_pair (P : platform) (ids : list jsstring) : jsstring :=
  u "md2slides_owned=" ++ encodeURIComponent P (JSON_stringify_ids P ids).

(** What a browser keeps of a [Set-Cookie] header and sends back: the text
    before the first [;]. *)
Definition browser_cookie (set_cookie : jsstring) : jsstring :=
  fst (split_pieces SEMICOLON set_cookie).

(** The [Cookie] header of a browser that sends [pair] last, after the
    cookies [before] if it has others. *)
Definition cookie_header (before : option jsstring) (pair : jsstring)
  : jsstring :=
  match before with
  | Some b => b ++ u "; " ++ pair
  | None => pair
  end.

(** A character that [trim] and the split at [;] leave alone. *)
Definition plain_char (c : N) : bool :=
  negb (is_space c) && negb (c =? SEMICOLON).

(** The platform reads back the cookie value it writes for [ids]: the
    encoded value is not empty and is made of plain characters (as a
    percent-encoding is), it decodes to the JSON text, and the JSON text
    parses to [ids]. *)
Definition reads_back (P : platform) (ids : list jsstring) : Prop :=
  let value := encodeURIComponent P (JSON_stringify_ids P ids) in
  truthy value = true
  /\ forallb plain_char value = true
  /\ decodeURIComponent P value = Some (JSON_stringify_ids P ids)
  /\ JSON_parse_ids P (JSON_stringify_ids P ids) = Some ids.

(** The list the save route writes after it read [owned] and saved [id]
    ([if (!ownedGists.includes(resultId)) ownedGists.push(resultId)]), and
    the list the delete route writes ([ownedGists.filter(id => id !==
    gistId)]). *)
Definition add_id (owned : list jsstring) (id : jsstring) : list jsstring :=
  if includes owned id then owned else owned ++ [id].

Definition remove_id (owned : list jsstring) (id : jsstring)
  : list jsstring :=
  filter (fun x => negb (str_eqb x id)) owned.

(** The requests a route may send for a request [req]: only with a
    credential, carrying it in [Authorization], and of the route's own
    kind. *)
Definition route_request (P : platform) (e : env) (rt : route)
  (req : request) (r : fetch_req) : Prop :=
  truthy (GITHUB_TOKEN e) = true
  /\ prop_get (u "Authorization") (headers r)
     = Some (u "token " ++ GITHUB_TOKEN e)
  /\ match rt with
     | SaveRoute =>
         exists b,
           req_json req = Some b
           /\ body r = Some (make_gistData e b)
           /\ ((method r = POST /\ url r = GISTS_URL)
               \/ (method r = PATCH
                   /\ exists g, gistId b = Some g /\ truthy g = true
                                /\ url r = gist_url g))
     | ListRoute =>
         method r = GET /\ body r = None
         /\ exists owned id,
              owned_gists P req = Some owned /\ In id owned
              /\ url r = gist_url id
     | DeleteRoute =>
         method r = DELETE /\ body r = None
         /\ url r = gist_url (req_params_id req)
     | LoadRoute =>
         method r = GET /\ body r = None
         /\ url r = gist_url (req_params_id req)
     | CheckOwnershipRoute => False
     end.

(** * Properties *)

(** ** Strings *)

Section StringFacts.

Variable sep : N.

Lemma split_pieces_join (s : jsstring) :
  join sep (fst (split_pieces sep s) :: snd (split_pieces sep s)) = s.
Proof.
  induction s as [|c s IH]; [reflexivity|].
  cbn [split_pieces].
  destruct (split_pieces sep s) as [piece pieces] eqn:E.
  cbn [fst snd] in IH.
  destruct (N.eqb_spec c sep) as [->|Hc]; cbn [fst snd].
  - change (join sep ([] :: piece :: pieces))
      with ([] ++ sep :: join sep (piece :: pieces)).
    now rewrite IH.
  - destruct pieces as [|p ps]; cbn [join] in *; now rewrite <- IH.
Qed.

Lemma join_split (s : jsstring) : join sep (split sep s) = s.
Proof.
  unfold split. pose proof (split_pieces_join s) as H.
  now destruct (split_pieces sep s).
Qed.

Lemma split_nonempty (s : jsstring) : split sep s <> [].
Proof. unfold split. now destruct (split_pieces sep s). Qed.

Lemma split_piece_free (s : jsstring) :
  Forall (fun piece => ~ In sep piece) (split sep s).
Proof.
  unfold split. induction s as [|c s IH]; cbn [split_pieces].
  - repeat constructor. intros [].
  - destruct (split_pieces sep s) as [piece pieces].
    inversion IH as [|? ? Hp Hps]; subst.
    destruct (N.eqb_spec c sep) as [->|Hc].
    + constructor; [intros []|now constructor].
    + constructor; [|assumption].
      intros [->|Hin]; [now apply Hc|now apply Hp].
Qed.

Lemma split_pieces_app (piece s : jsstring) :
  ~ In sep piece ->
  split_pieces sep (piece ++ sep :: s) = (piece, split sep s).
Proof.
  unfold split. induction piece as [|c piece IH]; intros Hfree.
  - cbn [app split_pieces]. destruct (split_pieces sep s).
    now rewrite N.eqb_refl.
  - cbn [app split_pieces]. rewrite IH by (intros Hin; apply Hfree; now right).
    destruct (split_pieces sep s).
    destruct (N.eqb_spec c sep) as [->|Hc]; [|reflexivity].
    exfalso. apply Hfree. now left.
Qed.

Lemma split_pieces_free (piece : jsstring) :
  ~ In sep piece -> split_pieces sep piece = (piece, []).
Proof.
  induction piece as [|c piece IH]; intros Hfree; [reflexivity|].
  cbn [split_pieces]. rewrite IH by (intros Hin; apply Hfree; now right).
  destruct (N.eqb_spec c sep) as [->|Hc]; [|reflexivity].
  exfalso. apply Hfree. now left.
Qed.

Lemma split_join (pieces : list jsstring) :
  pieces <> [] ->
  Forall (fun piece => ~ In sep piece) pieces ->
  split sep (join sep pieces) = pieces.
Proof.
  induction pieces as [|p ps IH]; intros Hne Hfree; [congruence|].
  inversion Hfree as [|? ? Hp Hps]; subst.
  destruct ps as [|q ps].
  - cbn [join]. unfold split. now rewrite split_pieces_free.
  - change (join sep (p :: q :: ps)) with (p ++ sep :: join sep (q :: ps)).
    unfold split at 1. rewrite split_pieces_app by assumption.
    now rewrite IH.
Qed.

Lemma join_app (a b : list jsstring) :
  a <> [] -> b <> [] ->
  join sep (a ++ b) = join sep a ++ sep :: join sep b.
Proof.
  induction a as [|p a IH]; intros Ha Hb; [congruence|].
  destruct a as [|q a].
  - destruct b; [congruence|reflexivity].
  - change (join sep ((p :: q :: a) ++ b))
      with (p ++ sep :: join sep ((q :: a) ++ b)).
    rewrite IH by (congruence || assumption).
    change (join sep (p :: q :: a)) with (p ++ sep :: join sep (q :: a)).
    now rewrite <- app_assoc.
Qed.

(** Joining the joined groups is joining all the pieces. *)
Lemma join_groups (groups : list (list jsstring)) :
  Forall (fun g => g <> []) groups ->
  join sep (map (join sep) groups) = join sep (concat groups).
Proof.
  induction groups as [|g gs IH]; intros Hne; [reflexivity|].
  inversion Hne as [|? ? Hg Hgs]; subst.
  destruct gs as [|h gs].
  - cbn. now rewrite app_nil_r.
  - change (join sep (map (join sep) (g :: h :: gs)))
      with (join sep g ++ sep :: join sep (map (join sep) (h :: gs))).
    rewrite IH by assumption.
    change (concat (g :: h :: gs)) with (g ++ concat (h :: gs)).
    rewrite join_app; [reflexivity|assumption|].
    inversion Hgs; subst. destruct h; [congruence|discriminate].
Qed.

End StringFacts.

Lemma trimStart_keeps (s : jsstring) :
  existsb (fun c => negb (is_space c)) s = true ->
  existsb (fun c => negb (is_space c)) (trimStart s) = true.
Proof.
  induction s as [|c s IH]; [discriminate|].
  cbn [trimStart existsb]. destruct (is_space c) eqn:E; cbn [negb orb].
  - exact IH.
  - intros _. cbn [existsb]. now rewrite E.
Qed.

Lemma existsb_rev {A : Type} (f : A -> bool) (l : list A) :
  existsb f (rev l) = existsb f l.
Proof.
  induction l as [|a l IH]; [reflexivity|].
  cbn [rev existsb]. rewrite existsb_app, IH. cbn [existsb].
  rewrite orb_false_r. apply orb_comm.
Qed.

(** A text with a character that is not white space does not trim to the
    empty string. *)
Lemma trim_truthy (s : jsstring) :
  existsb (fun c => negb (is_space c)) s = true -> truthy (trim s) = true.
Proof.
  intros H. unfold trim, trimEnd.
  apply trimStart_keeps in H. rewrite <- existsb_rev in H.
  apply trimStart_keeps in H. rewrite <- existsb_rev in H.
  destruct (rev (trimStart (rev (trimStart s)))); [discriminate|reflexivity].
Qed.

Lemma in_join (sep : N) (c : N) (pieces : list jsstring) (p : jsstring) :
  In p pieces -> In c p -> In c (join sep pieces).
Proof.
  induction pieces as [|q ps IH]; intros Hp Hc; [destruct Hp|].
  destruct ps as [|r ps].
  - destruct Hp as [->|[]]. exact Hc.
  - change (join sep (q :: r :: ps)) with (q ++ sep :: join sep (r :: ps)).
    apply in_or_app. destruct Hp as [->|Hp]; [now left|].
    right. right. now apply IH.
Qed.


(** ** The segmentation loop *)

Lemma snoc_cases {A : Type} (l : list A) :
  l = [] \/ exists l0 a, l = l0 ++ [a].
Proof.
  destruct l as [|a l]; [now left|right].
  destruct (@exists_last _ (a :: l)) as (l0 & b & E); [discriminate|].
  now exists l0, b.
Qed.

Lemma flush_state_of (groups : list (list jsstring)) :
  Forall (fun g => g <> []) groups ->
  flush (fst (state_of groups)) (snd (state_of groups))
  = map (join LF) groups.
Proof.
  intros Hne. unfold state_of. cbn [fst snd].
  destruct (snoc_cases groups) as [->|(G0 & c & ->)]; [reflexivity|].
  rewrite removelast_last, last_last.
  apply Forall_app in Hne as [_ Hc]. inversion Hc as [|? ? Hc' _]; subst.
  unfold flush. destruct c as [|l c]; [congruence|].
  cbn [length Nat.ltb Nat.leb]. now rewrite map_app.
Qed.

Lemma loop_groups (lines : list jsstring) :
  exists groups,
    fold_left SlidePreview.loop_body lines ([], []) = state_of groups
    /\ concat groups = lines
    /\ Forall (fun g => g <> []) groups
    /\ cut_at_headings groups.
Proof.
  induction lines as [|x lines IH] using rev_ind.
  - exists []. repeat split; constructor.
  - destruct IH as (G & Hst & Hcat & Hne & Htl & Hhd).
    rewrite fold_left_app, Hst. cbn [fold_left].
    unfold SlidePreview.loop_body.
    destruct (heading_re_test x) eqn:Hx.
    + exists (G ++ [[x]]). unfold state_of at 2.
      rewrite removelast_last, last_last.
      split; [|split; [|split; [|split]]].
      * pose proof (flush_state_of G Hne) as Hf. unfold state_of in *.
        cbn [fst snd] in Hf. now rewrite Hf.
      * rewrite concat_app, Hcat. reflexivity.
      * apply Forall_app. split; [assumption|].
        constructor; [discriminate|constructor].
      * apply Forall_app. split; [assumption|].
        constructor; constructor.
      * destruct G as [|g G']; cbn [tl app]; [constructor|].
        apply Forall_app. split; [exact Hhd|].
        constructor; [|constructor]. now exists x, [].
    + destruct (snoc_cases G) as [->|(G0 & c & ->)].
      * exists [[x]]. cbn in Hcat. subst lines.
        repeat split; repeat constructor. discriminate.
      * exists (G0 ++ [c ++ [x]]). unfold state_of.
        rewrite !removelast_last, !last_last.
        apply Forall_app in Hne as [Hne0 Hc].
        apply Forall_app in Htl as [Htl0 Htlc].
        inversion Hc as [|? ? Hc' _]; subst.
        inversion Htlc as [|? ? Htlc' _]; subst.
        destruct c as [|h t]; [congruence|]. cbn [tl] in Htlc'.
        split; [reflexivity|split; [|split; [|split]]].
        -- rewrite !concat_app. cbn [concat].
           rewrite !app_nil_r. apply app_assoc.
        -- apply Forall_app. split; [assumption|].
           constructor; [discriminate|constructor].
        -- apply Forall_app. split; [assumption|].
           constructor; [|constructor]. cbn [app tl].
           apply Forall_app. split; [assumption|]. now repeat constructor.
        -- destruct G0 as [|g G0']; cbn [tl app] in *; [constructor|].
           apply Forall_app in Hhd as [Hhd0 Hhdc].
           apply Forall_app. split; [assumption|].
           inversion Hhdc as [|? ? (h' & t' & E & Hh) _]; subst.
           injection E as -> ->.
           constructor; [|constructor]. now exists h', (t' ++ [x]).
Qed.

(** What the loop and the final flush emit for a non-empty array of lines. *)
Lemma segment_groups (lines : list jsstring) :
  lines <> [] ->
  exists groups,
    (let (slides, current) := fold_left SlidePreview.loop_body lines ([], [])
     in flush slides current) = map (join LF) groups
    /\ groups <> []
    /\ concat groups = lines
    /\ Forall (fun g => g <> []) groups
    /\ cut_at_headings groups.
Proof.
  intros Hl. destruct (loop_groups lines) as (G & Hst & Hcat & Hne & Hcut).
  exists G. rewrite Hst.
  split; [exact (flush_state_of G Hne)|].
  repeat split; try assumption; try apply Hcut.
  intros ->. cbn in Hcat. congruence.
Qed.

Lemma length_positive {A : Type} (l : list A) :
  l <> [] -> (0 <? length l)%nat = true.
Proof. destruct l; [congruence|reflexivity]. Qed.

Lemma SlidePreview_groups (text : jsstring) :
  truthy (trim text) = true ->
  exists groups,
    SlidePreview.parseSlides text = map (join LF) groups
    /\ groups <> []
    /\ concat groups = split LF text
    /\ Forall (fun g => g <> []) groups
    /\ cut_at_headings groups.
Proof.
  intros Ht. unfold SlidePreview.parseSlides. rewrite Ht. cbn [negb].
  destruct (segment_groups (split LF text) (split_nonempty LF text))
    as (G & Hseg & HG & Hrest).
  exists G. split; [|split; assumption].
  destruct (fold_left SlidePreview.loop_body (split LF text) ([], []))
    as [slides current].
  rewrite Hseg. rewrite length_positive; [reflexivity|].
  destruct G; [congruence|discriminate].
Qed.

Lemma LandingPage_groups (text : jsstring) :
  exists groups,
    LandingPage.parseSlides text = map (join LF) groups
    /\ groups <> []
    /\ concat groups = split LF text
    /\ Forall (fun g => g <> []) groups
    /\ cut_at_headings groups.
Proof.
  unfold LandingPage.parseSlides.
  destruct (segment_groups (split LF text) (split_nonempty LF text))
    as (G & Hseg & HG & Hrest).
  exists G. split; [|split; assumption].
  change LandingPage.loop_body with SlidePreview.loop_body.
  destruct (fold_left SlidePreview.loop_body (split LF text) ([], []))
    as [slides current].
  rewrite Hseg. rewrite length_positive; [reflexivity|].
  destruct G; [congruence|discriminate].
Qed.


Lemma trimStart_blank (s : jsstring) : blank s = true -> trimStart s = [].
Proof.
  unfold blank. induction s as [|c s IH]; [reflexivity|].
  cbn [forallb trimStart]. intros [Hc Hs]%andb_true_iff.
  rewrite Hc. now apply IH.
Qed.

Lemma trim_blank (s : jsstring) : blank s = true -> trim s = [].
Proof. intros H. unfold trim. now rewrite trimStart_blank. Qed.

Lemma not_blank_exists (s : jsstring) :
  blank s = false -> existsb (fun c => negb (is_space c)) s = true.
Proof.
  unfold blank. induction s as [|c s IH]; [discriminate|].
  cbn [forallb existsb]. destruct (is_space c); cbn [andb negb orb]; auto.
Qed.

Lemma in_not_blank (s : jsstring) (c : N) :
  In c s -> is_space c = false -> blank s = false.
Proof.
  unfold blank. intros Hin Hc.
  destruct (forallb is_space s) eqn:E; [|reflexivity].
  rewrite forallb_forall in E. specialize (E c Hin). congruence.
Qed.

(** [!text.trim()] holds exactly for the blank texts. *)
Lemma trim_truthy_blank (s : jsstring) : truthy (trim s) = negb (blank s).
Proof.
  destruct (blank s) eqn:E.
  - now rewrite trim_blank.
  - apply trim_truthy. now apply not_blank_exists.
Qed.

Lemma heading_re_test_spec (line : jsstring) :
  heading_re_test line = true <->
  (exists rest, line = HASH :: SPACE :: rest)
  \/ (exists rest, line = HASH :: HASH :: SPACE :: rest).
Proof.
  unfold heading_re_test. cbn [repeat app]. split.
  - intros H. apply orb_true_iff in H as [H|H].
    + destruct line as [|a [|b [|c rest]]]; cbn [startsWith] in H;
        rewrite ?andb_false_r in H; try discriminate.
      apply andb_true_iff in H as [Ha H]. apply andb_true_iff in H as [Hb H].
      apply andb_true_iff in H as [Hc _].
      apply N.eqb_eq in Ha, Hb, Hc. subst. right. now exists rest.
    + destruct line as [|a [|b rest]]; cbn [startsWith] in H;
        rewrite ?andb_false_r in H; try discriminate.
      apply andb_true_iff in H as [Ha H]. apply andb_true_iff in H as [Hb _].
      apply N.eqb_eq in Ha, Hb. subst. left. now exists rest.
  - intros [[rest ->]|[rest ->]]; cbn [startsWith].
    + rewrite !N.eqb_refl. apply orb_true_r.
    + now rewrite !N.eqb_refl.
Qed.

Lemma heading_not_blank (pieces : list jsstring) (b : jsstring) :
  In b pieces -> heading_re_test b = true -> blank (join LF pieces) = false.
Proof.
  intros Hin Hb. apply in_not_blank with (c := HASH); [|reflexivity].
  apply in_join with (p := b); [assumption|].
  apply heading_re_test_spec in Hb as [[rest ->]|[rest ->]]; now left.
Qed.

Lemma flush_cons (p : jsstring) (slides current : list jsstring) :
  flush (p :: slides) current = p :: flush slides current.
Proof. unfold flush. now destruct (0 <? length current)%nat. Qed.

Lemma loop_no_heading (pre : list jsstring) :
  Forall (fun l => heading_re_test l = false) pre ->
  forall slides current,
    fold_left SlidePreview.loop_body pre (slides, current)
    = (slides, current ++ pre).
Proof.
  induction 1 as [|l pre Hl _ IH]; intros slides current.
  - now rewrite app_nil_r.
  - cbn [fold_left SlidePreview.loop_body]. rewrite Hl, IH.
    now rewrite <- app_assoc.
Qed.

Lemma loop_prefix (lines : list jsstring) :
  forall p slides current,
    fold_left SlidePreview.loop_body lines (p :: slides, current)
    = (p :: fst (fold_left SlidePreview.loop_body lines (slides, current)),
       snd (fold_left SlidePreview.loop_body lines (slides, current))).
Proof.
  induction lines as [|l lines IH]; intros p slides current; [reflexivity|].
  cbn [fold_left SlidePreview.loop_body].
  destruct (heading_re_test l); [rewrite flush_cons|]; apply IH.
Qed.

Lemma startsWith_app (a b : jsstring) : startsWith a (a ++ b) = true.
Proof.
  induction a as [|c a IH]; [reflexivity|].
  cbn. now rewrite N.eqb_refl.
Qed.

(** [LandingPage]'s copy returns a blank text as its one slide: its
    [# Welcome] fallback is never reached. *)
Lemma LandingPage_blank_text (text : jsstring) :
  blank text = true -> LandingPage.parseSlides text = [text].
Proof.
  intros Hb. unfold LandingPage.parseSlides.
  change LandingPage.loop_body with SlidePreview.loop_body.
  assert (Hnone : Forall (fun l => heading_re_test l = false)
                         (split LF text)).
  { apply Forall_forall. intros l Hl.
    destruct (heading_re_test l) eqn:E; [|reflexivity].
    pose proof (heading_not_blank (split LF text) l Hl E) as H.
    rewrite join_split in H. congruence. }
  rewrite (loop_no_heading _ Hnone). cbn [app].
  pose proof (split_nonempty LF text) as Hne.
  unfold flush. rewrite (length_positive _ Hne).
  cbn [app length Nat.ltb Nat.leb]. now rewrite join_split.
Qed.

(** ** The segmenter's contract *)

(** C1, as stated, fails on the empty text: the guard on [text.trim()]
    answers with the placeholder slide, and joining the slides does not give
    the text back. *)
Lemma parseSlides_empty_text_not_reproduced :
  SlidePreview.parseSlides [] = [SlidePreview.placeholder]
  /\ join LF (SlidePreview.parseSlides []) <> [].
Proof. split; [reflexivity|discriminate]. Qed.

(** C1 (amended): for every text, [parseSlides] returns at least one slide;
    for every text that is not empty or white-space-only, joining the slides
    with a newline gives exactly the text. *)
Theorem parseSlides_content_preserving (text : jsstring) :
  SlidePreview.parseSlides text <> []
  /\ (blank text = false ->
      join LF (SlidePreview.parseSlides text) = text).
Proof.
  destruct (blank text) eqn:Hb.
  - split; [|discriminate].
    unfold SlidePreview.parseSlides.
    rewrite trim_truthy_blank, Hb. discriminate.
  - destruct (SlidePreview_groups text) as (G & -> & HG & Hcat & Hne & _).
    { now rewrite trim_truthy_blank, Hb. }
    split.
    + destruct G; [congruence|discriminate].
    + intros _. rewrite join_groups by assumption.
      rewrite Hcat. apply join_split.
Qed.

Lemma parseSlides_content_preserving_witness :
  blank (u "intro" ++ LF :: u "# A" ++ LF :: LF :: u "## B") = false
  /\ join LF (SlidePreview.parseSlides
                (u "intro" ++ LF :: u "# A" ++ LF :: LF :: u "## B"))
     = u "intro" ++ LF :: u "# A" ++ LF :: LF :: u "## B".
Proof.
  split; [reflexivity|].
  apply (proj2 (parseSlides_content_preserving
                  (u "intro" ++ LF :: u "# A" ++ LF :: LF :: u "## B"))).
  reflexivity.
Defined.



(** C4, as stated, fails: the lines before the first heading come out as a
    slide of their own, and the slide of the first heading starts with the
    heading line. *)
Lemma leading_lines_separate_slide_example :
  SlidePreview.parseSlides (u "intro" ++ LF :: u "# A" ++ LF :: u "body")
  = [u "intro"; u "# A" ++ LF :: u "body"]
  /\ SlidePreview.parseSlides (u "intro" ++ LF :: u "# A" ++ LF :: u "body")
     <> [u "intro" ++ LF :: u "# A" ++ LF :: u "body"].
Proof. split; [reflexivity|discriminate]. Qed.

(** C4 (amended): when a text has lines before its first heading line, those
    lines, joined by newlines, are the first slide (neither dropped nor
    prepended to the heading's slide); the slides after it are those of the
    text from the heading line on, the first of which starts with the
    heading line. *)
Theorem leading_lines_first_slide
  (text : jsstring) (pre : list jsstring) (b : jsstring)
  (rest : list jsstring) :
  split LF text = pre ++ b :: rest ->
  pre <> [] ->
  Forall (fun l => heading_re_test l = false) pre ->
  heading_re_test b = true ->
  SlidePreview.parseSlides text
  = join LF pre :: SlidePreview.parseSlides (join LF (b :: rest))
  /\ exists slide slides,
       SlidePreview.parseSlides (join LF (b :: rest)) = slide :: slides
       /\ startsWith b slide = true.
Proof.
  intros Hsplit Hpre Hnone Hb.
  assert (Hfree : Forall (fun l => ~ In LF l) (b :: rest)).
  { pose proof (split_piece_free LF text) as H. rewrite Hsplit in H.
    now apply Forall_app in H as [_ H]. }
  assert (Hlines : split LF (join LF (b :: rest)) = b :: rest).
  { apply split_join; [discriminate|assumption]. }
  assert (Htail : blank (join LF (b :: rest)) = false).
  { apply heading_not_blank with (b := b); [now left|assumption]. }
  assert (Htext : blank text = false).
  { rewrite <- (join_split LF text), Hsplit.
    apply heading_not_blank with (b := b); [|assumption].
    apply in_or_app. right. now left. }
  split.
  - destruct (segment_groups (b :: rest)) as (G & Hseg & HG & _);
      [discriminate|].
    cbn [fold_left SlidePreview.loop_body] in Hseg. rewrite Hb in Hseg.
    change (flush [] []) with (@nil jsstring) in Hseg.
    unfold SlidePreview.parseSlides.
    rewrite !trim_truthy_blank, Htail, Htext, Hlines, Hsplit. cbn [negb].
    rewrite fold_left_app, (loop_no_heading pre Hnone).
    cbn [fold_left app SlidePreview.loop_body]. rewrite Hb.
    replace (flush [] pre) with [join LF pre]
      by (destruct pre; [congruence|reflexivity]).
    change (flush [] []) with (@nil jsstring).
    rewrite loop_prefix.
    destruct (fold_left SlidePreview.loop_body rest ([], [b]))
      as [slides current].
    cbn [fst snd]. rewrite flush_cons, Hseg.
    rewrite (length_positive (_ :: _)) by discriminate.
    rewrite length_positive; [reflexivity|].
    destruct G; [congruence|discriminate].
  - destruct (SlidePreview_groups (join LF (b :: rest)))
      as (G & -> & HG & Hcat & Hne & _).
    { now rewrite trim_truthy_blank, Htail. }
    rewrite Hlines in Hcat.
    destruct G as [|g G]; [congruence|].
    inversion Hne as [|? ? Hg _]; subst.
    destruct g as [|l g]; [congruence|].
    cbn [concat app] in Hcat. injection Hcat as -> _.
    exists (join LF (b :: g)), (map (join LF) G). split; [reflexivity|].
    destruct g; [cbn [join]; rewrite <- (app_nil_r b) at 2|];
      apply startsWith_app.
Qed.

Lemma leading_lines_first_slide_witness :
  SlidePreview.parseSlides (u "intro" ++ LF :: u "more" ++ LF :: u "# A")
  = join LF [u "intro"; u "more"]
      :: SlidePreview.parseSlides (join LF [u "# A"])
  /\ exists slide slides,
       SlidePreview.parseSlides (join LF [u "# A"]) = slide :: slides
       /\ startsWith (u "# A") slide = true.
Proof.
  apply (leading_lines_first_slide
           (u "intro" ++ LF :: u "more" ++ LF :: u "# A")
           [u "intro"; u "more"] (u "# A") []).
  - reflexivity.
  - discriminate.
  - repeat constructor.
  - reflexivity.
Defined.



(** C10, as stated, fails on the empty text: [SlidePreview]'s guard gives its
    placeholder, [LandingPage]'s copy gives the empty slide. *)
Lemma parseSlides_copies_differ :
  SlidePreview.parseSlides [] = [SlidePreview.placeholder]
  /\ LandingPage.parseSlides [] = [[]]
  /\ SlidePreview.parseSlides [] <> LandingPage.parseSlides [].
Proof. repeat split; discriminate. Qed.

(** C10 (amended): the two [parseSlides] return the same slides for every
    text that is not empty or white-space-only. *)
Theorem parseSlides_copies_agree (text : jsstring) :
  blank text = false ->
  SlidePreview.parseSlides text = LandingPage.parseSlides text.
Proof.
  intros Hb.
  unfold SlidePreview.parseSlides, LandingPage.parseSlides.
  rewrite trim_truthy_blank, Hb. cbn [negb].
  change LandingPage.loop_body with SlidePreview.loop_body.
  destruct (segment_groups (split LF text) (split_nonempty LF text))
    as (G & Hseg & HG & _).
  destruct (fold_left SlidePreview.loop_body (split LF text) ([], []))
    as [slides current].
  rewrite Hseg, length_positive; [reflexivity|].
  destruct G; [congruence|discriminate].
Qed.

Lemma parseSlides_copies_agree_witness :
  SlidePreview.parseSlides (u "# A" ++ LF :: u "body" ++ LF :: u "## B")
  = LandingPage.parseSlides (u "# A" ++ LF :: u "body" ++ LF :: u "## B").
Proof.
  apply (parseSlides_copies_agree
           (u "# A" ++ LF :: u "body" ++ LF :: u "## B")).
  reflexivity.
Defined.


(** ** Running asynchronous code *)

Section Run.

Context {W : Type} (respond : W -> fetch_req -> fetch_outcome * W).

Lemma run_bind {A B : Type} (p : prog A) (f : A -> prog B) (w : W) :
  run respond (bind p f) w
  = match run respond p w with
    | (Some a, w') => run respond (f a) w'
    | (None, w') => (None, w')
    end.
Proof.
  revert w. induction p as [a| |req k IH]; intros w; try reflexivity.
  cbn [bind run]. destruct (respond w req) as [o w']. apply IH.
Qed.

Lemma run_try_catch {A : Type} (p handler : prog A) (w : W) :
  run respond (try_catch p handler) w
  = match run respond p w with
    | (Some a, w') => (Some a, w')
    | (None, w') => run respond handler w'
    end.
Proof.
  revert w. induction p as [a| |req k IH]; intros w; try reflexivity.
  cbn [try_catch run]. destruct (respond w req) as [o w']. apply IH.
Qed.

Lemma run_fetch (req : fetch_req) (w : W) :
  run respond (fetch req) w
  = match respond w req with
    | (Reply r, w') => (Some r, w')
    | (NetworkError, w') => (None, w')
    end.
Proof.
  unfold fetch. cbn [run]. now destruct (respond w req) as [[|r] w'].
Qed.

Lemma run_lift {A : Type} (x : option A) (w : W) :
  run respond (lift x) w = (x, w).
Proof. now destruct x. Qed.

Lemma run_leaves {A : Type} (Q : A -> Prop) (p : prog A) :
  leaves Q p ->
  forall w a w', run respond p w = (Some a, w') -> Q a.
Proof.
  induction p as [a| |req k IH]; cbn [leaves run]; intros Hp w b w' Hrun.
  - now injection Hrun as -> _.
  - discriminate.
  - destruct (respond w req) as [o w1]. now apply (IH o (Hp o) w1 b w').
Qed.

End Run.

Lemma leaves_bind {A B : Type} (Q : B -> Prop) (p : prog A)
  (f : A -> prog B) :
  (forall a, leaves Q (f a)) -> leaves Q (bind p f).
Proof.
  intros Hf. induction p as [a| |req k IH]; cbn [bind leaves]; auto.
Qed.

Lemma leaves_try_catch {A : Type} (Q : A -> Prop) (p handler : prog A) :
  leaves Q p -> leaves Q handler -> leaves Q (try_catch p handler).
Proof.
  intros Hp Hh. induction p as [a| |req k IH]; cbn [try_catch leaves] in *;
    auto.
Qed.


(** ** The gateway's contract *)

Lemma str_eqb_refl (a : jsstring) : str_eqb a a = true.
Proof. induction a as [|c a IH]; cbn; [reflexivity|]. now rewrite N.eqb_refl. Qed.

Lemma str_eqb_eq (a b : jsstring) : str_eqb a b = true <-> a = b.
Proof.
  split; [|intros ->; apply str_eqb_refl].
  revert b. induction a as [|c a IH]; intros [|d b]; cbn; try discriminate;
    [reflexivity|].
  intros [Hc Hab]%andb_true_iff. apply N.eqb_eq in Hc. subst.
  f_equal. now apply IH.
Qed.

Lemma includes_added (ids : list jsstring) (id : jsstring) :
  includes (if includes ids id then ids else ids ++ [id]) id = true.
Proof.
  destruct (includes ids id) eqn:E; [assumption|].
  unfold includes. rewrite existsb_app. cbn [existsb].
  now rewrite str_eqb_refl, orb_true_r.
Qed.

Lemma includes_removed (ids : list jsstring) (id : jsstring) :
  includes (filter (fun x => negb (str_eqb x id)) ids) id = false.
Proof.
  unfold includes. induction ids as [|x ids IH]; [reflexivity|].
  cbn [filter]. destruct (str_eqb x id) eqn:E; cbn [negb]; [assumption|].
  cbn [existsb]. now rewrite E.
Qed.







Section ListRoute.

Context (P : platform) (e : env).
Context {W : Type} (respond : W -> fetch_req -> fetch_outcome * W).

Lemma run_list_entry (id : jsstring) (w : W) :
  run respond (list_entry P e id) w
  = (Some (resolved P (fst (respond w (read_req e id)))),
     snd (respond w (read_req e id))).
Proof.
  unfold list_entry. rewrite run_try_catch, run_bind, run_fetch.
  destruct (respond w (read_req e id)) as [[|r] w']; [reflexivity|].
  cbn [resolved fst snd]. destruct (ok r); cbn [negb]; [|reflexivity].
  rewrite run_bind, run_lift. now destruct (json r).
Qed.

Lemma run_Promise_all_entries (ids : list jsstring) :
  forall w,
    run respond (Promise_all (map (list_entry P e) ids)) w
    = (Some (map (resolved P) (fst (ask_each respond e ids w))),
       snd (ask_each respond e ids w)).
Proof.
  induction ids as [|id ids IH]; intros w; [reflexivity|].
  cbn [map Promise_all ask_each].
  rewrite run_bind, run_list_entry.
  destruct (respond w (read_req e id)) as [o w1]. cbn [fst snd].
  rewrite run_bind, IH.
  now destruct (ask_each respond e ids w1).
Qed.

End ListRoute.

(** C7: the list route never answers with an error; without a credential it
    answers with the empty list and asks nothing; with one, it asks for each
    owned ID in turn and lists, in order, the entries of exactly the fetches
    that resolved, dropping the others. *)
Theorem list_drops_failed_ids
  (P : platform) (e : env) (req : request)
  (W : Type) (respond : W -> fetch_req -> fetch_outcome * W) (w : W) :
  (exists gists w',
      run respond (list_GET P e req) w
      = (Some (Response_json (GistsBody gists) 200), w'))
  /\ (truthy (GITHUB_TOKEN e) = false ->
      run respond (list_GET P e req) w
      = (Some (Response_json (GistsBody []) 200), w))
  /\ (forall owned,
        truthy (GITHUB_TOKEN e) = true ->
        owned_gists P req = Some owned ->
        run respond (list_GET P e req) w
        = (Some (Response_json
                   (GistsBody
                      (filter_non_null
                         (map (resolved P)
                              (fst (ask_each respond e owned w))))) 200),
           snd (ask_each respond e owned w))).
Proof.
  assert (Hall : forall owned,
             truthy (GITHUB_TOKEN e) = true ->
             owned_gists P req = Some owned ->
             run respond (list_GET P e req) w
             = (Some (Response_json
                        (GistsBody
                           (filter_non_null
                              (map (resolved P)
                                   (fst (ask_each respond e owned w))))) 200),
                snd (ask_each respond e owned w))).
  { intros owned Htok Howned. unfold list_GET. rewrite Htok. cbn [negb].
    rewrite run_try_catch, run_bind, run_lift, Howned. cbn beta iota.
    destruct owned as [|id owned]; [reflexivity|].
    cbn [length Nat.eqb].
    now rewrite run_bind, run_Promise_all_entries. }
  split; [|split; [|exact Hall]].
  - destruct (truthy (GITHUB_TOKEN e)) eqn:Htok.
    + destruct (owned_gists P req) as [owned|] eqn:Howned.
      * do 2 eexists. now apply Hall.
      * do 2 eexists. unfold list_GET. rewrite Htok. cbn [negb].
        rewrite run_try_catch, run_bind, run_lift, Howned. reflexivity.
    + do 2 eexists. unfold list_GET. rewrite Htok. reflexivity.
  - intros Htok. unfold list_GET. now rewrite Htok.
Qed.

Lemma list_drops_failed_ids_witness :
  run Reference.scripted
    (list_GET Reference.P Sample.e
       (Sample.about []
          (Some (u "md2slides_owned=%5B%22a%22%2C%22b%22%2C%22c%22%5D"))))
    [Reply (Sample.answered 200 (Sample.titled (u "a") (u "First")));
     Reply (Sample.refused 404);
     Reply (Sample.answered 200 (Sample.gist (u "c") []))]
  = (Some (Response_json
             (GistsBody [Sample.entry (u "a") (u "First");
                         Sample.entry (u "c") (u "Untitled Presentation")])
             200), []).
Proof.
  exact (proj2 (proj2
           (list_drops_failed_ids Reference.P Sample.e
              (Sample.about []
                 (Some (u "md2slides_owned=%5B%22a%22%2C%22b%22%2C%22c%22%5D")))
              (list fetch_outcome) Reference.scripted
              [Reply (Sample.answered 200 (Sample.titled (u "a") (u "First")));
               Reply (Sample.refused 404);
               Reply (Sample.answered 200 (Sample.gist (u "c") []))]))
           [u "a"; u "b"; u "c"] eq_refl eq_refl).
Defined.

(** C8: the load route answers 500 [not configured] without a credential and
    500 when the remote is unreachable; it answers 404 [Gist not found] when
    the remote answers 404; and when the gist is there but its
    [metadata.json] is absent or does not parse, it answers 200 with the
    content and the title [Untitled Presentation]. *)
Theorem load_errors_and_default_title
  (P : platform) (e : env) (req : request)
  (W : Type) (respond : W -> fetch_req -> fetch_outcome * W) (w : W) :
  (truthy (GITHUB_TOKEN e) = false ->
   run respond (load_GET P e req) w
   = (Some (Response_json (ErrorBody (u "GitHub token not configured")) 500),
      w))
  /\ (truthy (GITHUB_TOKEN e) = true ->
      forall o w',
        respond w (read_req e (req_params_id req)) = (o, w') ->
        (o = NetworkError ->
         run respond (load_GET P e req) w
         = (Some (Response_json (ErrorBody (u "Failed to load from gist"))
                    500), w'))
        /\ (forall r,
              o = Reply r -> status r = 404 ->
              run respond (load_GET P e req) w
              = (Some (Response_json (ErrorBody (u "Gist not found")) 404),
                 w'))
        /\ (forall r gist,
              o = Reply r -> ok r = true -> json r = Some gist ->
              prop_get (u "metadata.json") (gist_files gist) = None
              \/ (exists c,
                     prop_get (u "metadata.json") (gist_files gist) = Some c
                     /\ JSON_parse_title P c = None) ->
              run respond (load_GET P e req) w
              = (Some (Response_json
                         (LoadedBody
                            (or_else (prop_get (u "presentation.md")
                                        (gist_files gist)) [])
                            (u "Untitled Presentation")) 200), w'))).
Proof.
  split.
  - intros Htok. unfold load_GET. now rewrite Htok.
  - intros Htok o w' Hresp.
    assert (Hrun : run respond (load_GET P e req) w
                   = run respond (load_GET P e req) w) by reflexivity.
    unfold load_GET at 2 in Hrun. rewrite Htok in Hrun. cbn [negb] in Hrun.
    rewrite run_try_catch, run_bind, run_fetch, Hresp in Hrun.
    split; [|split].
    + intros ->. now rewrite Hrun.
    + intros r -> H404. rewrite Hrun. cbn beta iota.
      unfold ok. rewrite H404. reflexivity.
    + intros r gist -> Hok Hjson Hmeta. rewrite Hrun. cbn beta iota.
      rewrite Hok. cbn [negb]. rewrite run_bind, run_lift, Hjson.
      cbn beta iota. cbn [run]. unfold title_of.
      destruct Hmeta as [->|(c & -> & ->)]; reflexivity.
Qed.

Lemma load_errors_and_default_title_witness :
  run Reference.scripted
    (load_GET Reference.P Sample.e (Sample.about (u "abc") None))
    [Reply (Sample.answered 200
              (Sample.gist (u "abc")
                 [(u "presentation.md", u "# Deck");
                  (u "metadata.json", u "{title: Deck")]))]
  = (Some (Response_json
             (LoadedBody (u "# Deck") (u "Untitled Presentation")) 200), []).
Proof.
  exact (proj2 (proj2
           (proj2
              (load_errors_and_default_title Reference.P Sample.e
                 (Sample.about (u "abc") None)
                 (list fetch_outcome) Reference.scripted
                 [Reply (Sample.answered 200
                           (Sample.gist (u "abc")
                              [(u "presentation.md", u "# Deck");
                               (u "metadata.json", u "{title: Deck")]))])
              eq_refl _ _ eq_refl))
           _ _ eq_refl eq_refl eq_refl
           (or_intror (ex_intro _ (u "{title: Deck") (conj eq_refl eq_refl)))).
Defined.



Ltac leaves_cases :=
  repeat first
    [ apply leaves_try_catch
    | apply leaves_bind; intros
    | match goal with
      | |- leaves _ (if ?c then _ else _) => destruct c
      | |- leaves _ (match ?x with _ => _ end) => destruct x
      end ].



(** * Further properties of the segmenter *)

Lemma loop_count (lines : list jsstring) :
  forall slides current,
    current <> [] ->
    length (let (s, c) := fold_left SlidePreview.loop_body lines
                            (slides, current) in flush s c)
    = (length slides + 1 + length (filter heading_re_test lines))%nat.
Proof.
  induction lines as [|l lines IH]; intros slides current Hc.
  - cbn [fold_left filter length]. unfold flush.
    rewrite (length_positive _ Hc), length_app. cbn [length]. lia.
  - cbn [fold_left SlidePreview.loop_body filter].
    destruct (heading_re_test l).
    + rewrite IH by discriminate. unfold flush.
      rewrite (length_positive _ Hc), length_app. cbn [length]. lia.
    + rewrite IH; [reflexivity|]. now destruct current.
Qed.

Lemma loop_first_line (l : jsstring) :
  SlidePreview.loop_body ([], []) l = ([], [l]).
Proof.
  unfold SlidePreview.loop_body. now destruct (heading_re_test l).
Qed.

(** X1: a text that is not blank and has no heading line is one slide, the
    text itself. *)
Theorem no_heading_single_slide (text : jsstring) :
  blank text = false ->
  Forall (fun l => heading_re_test l = false) (split LF text) ->
  SlidePreview.parseSlides text = [text].
Proof.
  intros Hb Hnone. unfold SlidePreview.parseSlides.
  rewrite trim_truthy_blank, Hb. cbn [negb].
  rewrite (loop_no_heading _ Hnone). cbn [app].
  pose proof (split_nonempty LF text) as Hne.
  unfold flush. rewrite (length_positive _ Hne).
  cbn [app length Nat.ltb Nat.leb]. now rewrite join_split.
Qed.

Lemma no_heading_single_slide_witness :
  SlidePreview.parseSlides (u "just text" ++ LF :: u "### not a cut")
  = [u "just text" ++ LF :: u "### not a cut"].
Proof.
  apply (no_heading_single_slide (u "just text" ++ LF :: u "### not a cut")).
  - reflexivity.
  - repeat constructor.
Defined.

(** X2: a text that is not blank has one slide, plus one for every heading
    line after its first line. *)
Theorem slide_count (text : jsstring) :
  blank text = false ->
  length (SlidePreview.parseSlides text)
  = S (length (filter heading_re_test (tl (split LF text)))).
Proof.
  intros Hb. unfold SlidePreview.parseSlides.
  rewrite trim_truthy_blank, Hb. cbn [negb].
  pose proof (split_nonempty LF text) as Hne.
  destruct (split LF text) as [|l lines]; [congruence|].
  cbn [fold_left tl]. rewrite loop_first_line.
  pose proof (loop_count lines [] [l]) as Hcount.
  destruct (fold_left SlidePreview.loop_body lines ([], [l]))
    as [slides current].
  specialize (Hcount ltac:(discriminate)). cbn [length] in Hcount.
  destruct (flush slides current) as [|s ss]; [discriminate|].
  cbn [length Nat.ltb Nat.leb] in *. lia.
Qed.

Lemma slide_count_witness :
  length (SlidePreview.parseSlides
            (u "intro" ++ LF :: u "# A" ++ LF :: u "x" ++ LF :: u "## B"))
  = S (length (filter heading_re_test
                 (tl (split LF (u "intro" ++ LF :: u "# A" ++ LF :: u "x"
                                ++ LF :: u "## B"))))).
Proof.
  apply (slide_count
           (u "intro" ++ LF :: u "# A" ++ LF :: u "x" ++ LF :: u "## B")).
  reflexivity.
Defined.

(** X3: [LandingPage]'s copy has no guard: for every text, blank ones
    included, it returns at least one slide and joining its slides with
    newlines gives the text back; its [# Welcome] fallback is never
    returned for lack of slides. *)
Theorem LandingPage_content_preserving (text : jsstring) :
  LandingPage.parseSlides text <> []
  /\ join LF (LandingPage.parseSlides text) = text.
Proof.
  destruct (LandingPage_groups text) as (G & -> & HG & Hcat & Hne & _).
  split.
  - destruct G; [congruence|discriminate].
  - rewrite join_groups by assumption. rewrite Hcat. apply join_split.
Qed.

Lemma group_one_slide (g : list jsstring) :
  g <> [] ->
  Forall (fun l => heading_re_test l = false) (tl g) ->
  (let (s, c) := fold_left SlidePreview.loop_body g ([], []) in flush s c)
  = [join LF g].
Proof.
  intros Hg Htl. destruct g as [|h t]; [congruence|].
  cbn [fold_left tl] in *. rewrite loop_first_line.
  rewrite (loop_no_heading t Htl). reflexivity.
Qed.

(** X4: segmenting is stable: every slide that [parseSlides] returns for a
    text that is not blank is, when it is not blank itself, a text of
    exactly one slide, itself. *)
Theorem slides_are_single_slides (text slide : jsstring) :
  blank text = false ->
  In slide (SlidePreview.parseSlides text) ->
  blank slide = false ->
  SlidePreview.parseSlides slide = [slide].
Proof.
  intros Hb Hin Hs.
  destruct (SlidePreview_groups text) as (G & HG & _ & Hcat & Hne & Htl & _).
  { now rewrite trim_truthy_blank, Hb. }
  rewrite HG in Hin. apply in_map_iff in Hin as (g & <- & Hg).
  assert (Hfree : Forall (fun l => ~ In LF l) g).
  { pose proof (split_piece_free LF text) as Hall. rewrite <- Hcat in Hall.
    rewrite Forall_forall in *. intros l Hl. apply Hall.
    apply in_concat. now exists g. }
  rewrite Forall_forall in Hne, Htl.
  specialize (Hne g Hg). specialize (Htl g Hg).
  unfold SlidePreview.parseSlides.
  rewrite trim_truthy_blank, Hs. cbn [negb].
  rewrite split_join by assumption.
  pose proof (group_one_slide g Hne Htl) as Hone.
  destruct (fold_left SlidePreview.loop_body g ([], [])) as [s c].
  now rewrite Hone.
Qed.

Lemma slides_are_single_slides_witness :
  SlidePreview.parseSlides (u "# A" ++ LF :: u "body") = [u "# A" ++ LF :: u "body"].
Proof.
  apply (slides_are_single_slides
           (u "# A" ++ LF :: u "body" ++ LF :: u "## B")
           (u "# A" ++ LF :: u "body")).
  - reflexivity.
  - left. reflexivity.
  - reflexivity.
Defined.


(** * Slide navigation *)

Lemma SlidePreview_nonempty (text : jsstring) :
  (1 <= length (SlidePreview.parseSlides text))%nat.
Proof.
  destruct (blank text) eqn:Hb.
  - unfold SlidePreview.parseSlides. rewrite trim_truthy_blank, Hb.
    cbn. lia.
  - destruct (SlidePreview_groups text) as (G & -> & HG & _).
    { now rewrite trim_truthy_blank, Hb. }
    destruct G; [congruence|]. cbn. lia.
Qed.

Lemma at_index_in_range (slides : list jsstring) (i : Z) :
  (0 <= i < Z.of_nat (length slides))%Z ->
  exists s, at_index slides i = Some s /\ In s slides.
Proof.
  intros Hi. unfold at_index.
  destruct (Z.ltb_spec i 0) as [Hneg|_]; [lia|].
  destruct (nth_error slides (Z.to_nat i)) as [s|] eqn:E.
  - exists s. split; [reflexivity|]. now apply nth_error_In in E.
  - apply nth_error_None in E. lia.
Qed.

(** X5: whatever the text and whatever index at or above [0] the editor
    holds, the index [SlidePreview] clamps to is that of an existing slide
    (the text may have lost slides since the index was set), it is the held
    index when that one exists, and the markdown rendered is that slide. *)
Theorem preview_shows_existing_slide (content : jsstring) (currentSlide : Z) :
  (0 <= currentSlide)%Z ->
  let slides := SlidePreview.parseSlides content in
  let i := SlidePreviewComponent.safeSlideIndex currentSlide slides in
  (0 <= i < Z.of_nat (length slides))%Z
  /\ (currentSlide < Z.of_nat (length slides) -> i = currentSlide)%Z
  /\ exists s, at_index slides i = Some s
               /\ In s slides
               /\ SlidePreviewComponent.shown content currentSlide = s.
Proof.
  intros Hc slides i.
  pose proof (SlidePreview_nonempty content) as Hne. fold slides in Hne.
  assert (Hi : (0 <= i < Z.of_nat (length slides))%Z).
  { subst i. unfold SlidePreviewComponent.safeSlideIndex. lia. }
  split; [exact Hi|split].
  - subst i. unfold SlidePreviewComponent.safeSlideIndex. lia.
  - destruct (at_index_in_range slides i Hi) as (s & Hs & Hin).
    exists s. repeat split; try assumption.
    unfold SlidePreviewComponent.shown. fold slides. fold i. rewrite Hs.
    cbn [or_else]. now destruct s.
Qed.

Lemma preview_shows_existing_slide_witness :
  SlidePreviewComponent.shown (u "# A" ++ LF :: u "# B") 7 = u "# B".
Proof.
  destruct (preview_shows_existing_slide (u "# A" ++ LF :: u "# B") 7
              ltac:(lia)) as (_ & _ & s & Hs & _ & Hshown).
  rewrite Hshown. injection Hs as <-. reflexivity.
Defined.




Lemma advance_iter (n : Z) (k : nat) (cur : Z) :
  (0 <= cur < n)%Z ->
  Nat.iter k (LandingPageComponent.advance n) cur
  = ((cur + Z.of_nat k) mod n)%Z.
Proof.
  intros Hc. induction k as [|k IH].
  - cbn [Nat.iter]. rewrite Z.add_0_r. symmetry. now apply Z.mod_small.
  - rewrite Nat.iter_succ, IH. unfold LandingPageComponent.advance.
    assert (Hm : (0 <= (cur + Z.of_nat k) mod n < n)%Z)
      by (apply Z.mod_pos_bound; lia).
    rewrite Z.rem_mod_nonneg by lia.
    rewrite Zplus_mod_idemp_l. f_equal. lia.
Qed.

(** X8: the demo's timer keeps the index that of an existing slide of the
    demo text, whatever that text is: each tick moves to the next slide, or
    from the last slide to the first, and after as many ticks as there are
    slides the demo is back where it was. *)
Theorem auto_advance_cycles (text : jsstring) (currentSlide : Z) :
  let slides := LandingPage.parseSlides text in
  let n := Z.of_nat (length slides) in
  (0 <= currentSlide < n)%Z ->
  (0 <= LandingPageComponent.advance n currentSlide < n)%Z
  /\ LandingPageComponent.advance n currentSlide
     = (if (currentSlide =? n - 1)%Z then 0 else currentSlide + 1)%Z
  /\ Nat.iter (length slides) (LandingPageComponent.advance n) currentSlide
     = currentSlide
  /\ exists s, In s slides
               /\ LandingPageComponent.slideSource slides currentSlide = s.
Proof.
  intros slides n Hc.
  assert (Hadv : LandingPageComponent.advance n currentSlide
                 = (if (currentSlide =? n - 1)%Z then 0
                    else currentSlide + 1)%Z).
  { unfold LandingPageComponent.advance.
    rewrite Z.rem_mod_nonneg by lia.
    destruct (Z.eqb_spec currentSlide (n - 1)) as [->|Hlast].
    - replace (n - 1 + 1)%Z with n by lia. apply Z_mod_same_full.
    - apply Z.mod_small. lia. }
  split; [|split; [exact Hadv|split]].
  - rewrite Hadv. destruct (Z.eqb_spec currentSlide (n - 1)); lia.
  - rewrite advance_iter by assumption. fold n.
    rewrite <- (Z.mul_1_l n) at 1. rewrite Z_mod_plus_full.
    apply Z.mod_small. assumption.
  - destruct (at_index_in_range slides currentSlide Hc) as (s & Hs & Hin).
    exists s. split; [assumption|].
    unfold LandingPageComponent.slideSource. rewrite Hs.
    cbn [or_else]. now destruct s.
Qed.

Lemma auto_advance_cycles_witness :
  LandingPageComponent.advance 2 1 = 0%Z.
Proof.
  exact (proj1 (proj2 (auto_advance_cycles (u "# A" ++ LF :: u "# B") 1
                         ltac:(cbn; lia)))).
Defined.


(** * Further properties of the gateway *)

(** ** Reading the cookie back *)

Lemma split_app_sep (sep : N) (a b : jsstring) :
  split sep (a ++ sep :: b) = split sep a ++ split sep b.
Proof.
  unfold split. induction a as [|c a IH]; cbn [app split_pieces].
  - rewrite N.eqb_refl. now destruct (split_pieces sep b).
  - destruct (split_pieces sep (a ++ sep :: b)) as [p ps].
    destruct (split_pieces sep a) as [q qs].
    destruct (split_pieces sep b) as [r rs].
    cbn [app] in IH. injection IH as -> ->.
    now destruct (c =? sep).
Qed.

Lemma plain_not_semicolon (s : jsstring) :
  forallb plain_char s = true -> ~ In SEMICOLON s.
Proof.
  intros H Hin. rewrite forallb_forall in H. specialize (H _ Hin).
  discriminate.
Qed.

Lemma trimStart_plain (s : jsstring) :
  forallb plain_char s = true -> trimStart s = s.
Proof.
  destruct s as [|c s]; [reflexivity|]. cbn [forallb trimStart].
  unfold plain_char at 1. now destruct (is_space c).
Qed.

Lemma forallb_rev {A : Type} (f : A -> bool) (l : list A) :
  forallb f (rev l) = forallb f l.
Proof.
  induction l as [|a l IH]; [reflexivity|].
  cbn [rev forallb]. rewrite forallb_app, IH. cbn [forallb].
  rewrite andb_true_r. apply andb_comm.
Qed.

Lemma trim_plain (s : jsstring) : forallb plain_char s = true -> trim s = s.
Proof.
  intros H. unfold trim, trimEnd. rewrite (trimStart_plain s H).
  rewrite trimStart_plain by now rewrite forallb_rev.
  apply rev_involutive.
Qed.

Lemma prop_get_last {A : Type} (key : jsstring) (entries : list (jsstring * A))
  (v : A) :
  prop_get key (entries ++ [(key, v)]) = Some v.
Proof.
  induction entries as [|[k x] entries IH]; cbn [app prop_get].
  - now rewrite str_eqb_refl.
  - now rewrite IH.
Qed.

Lemma parse_cookies_last (before : option jsstring) (value : jsstring) :
  forallb plain_char value = true ->
  exists entries,
    parse_cookies (cookie_header before (u "md2slides_owned=" ++ value))
    = entries ++ [(u "md2slides_owned", value)].
Proof.
  intros Hv.
  assert (Hpair : forallb plain_char (u "md2slides_owned=" ++ value) = true).
  { rewrite forallb_app, Hv. reflexivity. }
  assert (Hsplit : split EQUALS (u "md2slides_owned=" ++ value)
                   = u "md2slides_owned" :: split EQUALS value).
  { change (u "md2slides_owned=" ++ value)
      with (u "md2slides_owned" ++ EQUALS :: value).
    unfold split at 1. rewrite split_pieces_app; [reflexivity|].
    cbn. intros H. repeat (destruct H as [H|H]; [discriminate|]).
    exact H. }
  assert (Hentry :
            match split EQUALS (trim (SPACE :: u "md2slides_owned=" ++ value))
            with
            | key :: v => (key, join EQUALS v)
            | [] => ([], [])
            end = (u "md2slides_owned", value)
            /\ match split EQUALS (trim (u "md2slides_owned=" ++ value))
               with
               | key :: v => (key, join EQUALS v)
               | [] => ([], [])
               end = (u "md2slides_owned", value)).
  { replace (trim (SPACE :: u "md2slides_owned=" ++ value))
      with (trim (u "md2slides_owned=" ++ value)) by reflexivity.
    rewrite (trim_plain _ Hpair), Hsplit, join_split. now split. }
  destruct Hentry as [Hsp Hnosp].
  assert (Hfree : ~ In SEMICOLON (u "md2slides_owned=" ++ value))
    by now apply plain_not_semicolon.
  unfold parse_cookies. destruct before as [b|]; cbn [cookie_header].
  - change (b ++ u "; " ++ u "md2slides_owned=" ++ value)
      with (b ++ SEMICOLON :: (SPACE :: u "md2slides_owned=" ++ value)).
    assert (Hone : split SEMICOLON (SPACE :: u "md2slides_owned=" ++ value)
                   = [SPACE :: u "md2slides_owned=" ++ value]).
    { unfold split. rewrite split_pieces_free; [reflexivity|].
      intros [H|H]; [discriminate|contradiction]. }
    rewrite split_app_sep, Hone, map_app, filter_app.
    cbn [map filter]. rewrite Hsp. cbn [fst truthy u].
    eexists. reflexivity.
  - assert (Hone : split SEMICOLON (u "md2slides_owned=" ++ value)
                   = [u "md2slides_owned=" ++ value]).
    { unfold split. now rewrite split_pieces_free. }
    rewrite Hone. cbn [map filter]. rewrite Hnosp.
    exists []. reflexivity.
Qed.

Lemma owned_gists_cookie_header (P : platform) (ids : list jsstring)
  (before : option jsstring) (req : request) :
  reads_back P ids ->
  req_cookie req = Some (cookie_header before (cookie_pair P ids)) ->
  owned_gists P req = Some ids.
Proof.
  intros (Htruthy & Hplain & Hdecode & Hparse) Hreq.
  unfold owned_gists. rewrite Hreq.
  destruct (parse_cookies_last before _ Hplain) as (entries & Hentries).
  unfold cookie_pair.
  replace (or_else
             (Some (cookie_header before
                      (u "md2slides_owned="
                       ++ encodeURIComponent P (JSON_stringify_ids P ids))))
             [])
    with (cookie_header before
            (u "md2slides_owned="
             ++ encodeURIComponent P (JSON_stringify_ids P ids))).
  - rewrite Hentries, prop_get_last, Htruthy, Hdecode. exact Hparse.
  - cbn [or_else]. now destruct before as [[|c b]|].
Qed.

Lemma browser_cookie_set_cookie (P : platform) (ids : list jsstring) :
  forallb plain_char (encodeURIComponent P (JSON_stringify_ids P ids)) = true ->
  browser_cookie (set_cookie_header P ids) = cookie_pair P ids.
Proof.
  intros Hplain. unfold browser_cookie, set_cookie_header.
  change (u "md2slides_owned="
          ++ encodeURIComponent P (JSON_stringify_ids P ids)
          ++ u "; Path=/; Max-Age=31536000; SameSite=Lax")
    with (u "md2slides_owned="
          ++ encodeURIComponent P (JSON_stringify_ids P ids)
          ++ SEMICOLON :: u " Path=/; Max-Age=31536000; SameSite=Lax").
  rewrite app_assoc, split_pieces_app; [reflexivity|].
  apply plain_not_semicolon. rewrite forallb_app, Hplain. reflexivity.
Qed.

(** X9: the ownership cookie round-trips. When the platform reads back the
    value it writes for a list of IDs, a request that carries the
    [name=value] pair of the [Set-Cookie] header written for that list,
    alone or last after other cookies (an older [md2slides_owned] among them
    included), is read by every route as exactly that list. *)
Theorem ownership_cookie_round_trip
  (P : platform) (ids : list jsstring) (before : option jsstring)
  (req : request) :
  reads_back P ids ->
  req_cookie req
  = Some (cookie_header before (browser_cookie (set_cookie_header P ids))) ->
  owned_gists P req = Some ids.
Proof.
  intros Hback Hreq.
  rewrite browser_cookie_set_cookie in Hreq by apply Hback.
  exact (owned_gists_cookie_header P ids before req Hback Hreq).
Qed.

Lemma reference_reads_back_sample :
  reads_back Reference.P [u "old"; u "abc"].
Proof. repeat split. Qed.

Lemma ownership_cookie_round_trip_witness :
  owned_gists Reference.P
    (Sample.about (u "abc")
       (Some (u "theme=dark; md2slides_owned=%5B%22x%22%5D; md2slides_owned=%5B%22old%22%2C%22abc%22%5D")))
  = Some [u "old"; u "abc"].
Proof.
  exact (ownership_cookie_round_trip Reference.P [u "old"; u "abc"]
           (Some (u "theme=dark; md2slides_owned=%5B%22x%22%5D"))
           (Sample.about (u "abc")
              (Some (u "theme=dark; md2slides_owned=%5B%22x%22%5D; md2slides_owned=%5B%22old%22%2C%22abc%22%5D")))
           reference_reads_back_sample eq_refl).
Defined.

(** ** The ownership list across requests *)

Lemma leaves_bind_lift {A B : Type} (Q : B -> Prop) (x : option A)
  (f : A -> prog B) :
  (forall a, x = Some a -> leaves Q (f a)) -> leaves Q (bind (lift x) f).
Proof. intros Hf. destruct x as [a|]; cbn; auto. Qed.

Ltac leaves_paths :=
  repeat first
    [ apply leaves_try_catch
    | apply leaves_bind_lift; intros
    | apply leaves_bind; intros
    | match goal with
      | |- leaves _ (if ?c then _ else _) => destruct c
      | |- leaves _ (match ?x with _ => _ end) => destruct x
      end ].

Lemma save_success_leaves (P : platform) (e : env) (req : request) :
  leaves (fun resp =>
            forall url id upd,
              resp_body resp = SavedBody url id upd ->
              exists owned,
                owned_gists P req = Some owned
                /\ resp_status resp = 200
                /\ resp_set_cookie resp
                   = Some (set_cookie_header P (add_id owned id)))
         (save_POST P e req).
Proof.
  unfold save_POST. leaves_paths;
    cbn [leaves Response_json resp_body resp_status resp_set_cookie];
    intros url id upd Hbody; try discriminate.
  injection Hbody as _ <- _.
  eexists. split; [eassumption|]. split; [reflexivity|].
  unfold add_id. now destruct (includes _ _).
Qed.

Lemma delete_success_leaves (P : platform) (e : env) (req : request) :
  leaves (fun resp =>
            resp_body resp = SuccessBody ->
            exists owned,
              owned_gists P req = Some owned
              /\ resp_status resp = 200
              /\ resp_set_cookie resp
                 = Some (set_cookie_header P
                           (remove_id owned (req_params_id req))))
         (delete_DELETE P e req).
Proof.
  unfold delete_DELETE. leaves_paths;
    cbn [leaves Response_json resp_body resp_status resp_set_cookie];
    intros Hbody; try discriminate.
  eexists. split; [eassumption|]. split; reflexivity.
Qed.

Lemma includes_In (ids : list jsstring) (id : jsstring) :
  includes ids id = true <-> In id ids.
Proof.
  unfold includes. rewrite existsb_exists. split.
  - intros (x & Hx & Heq). apply str_eqb_eq in Heq. now subst.
  - intros Hin. exists id. split; [assumption|apply str_eqb_refl].
Qed.

Lemma str_eqb_sym (a b : jsstring) : str_eqb a b = str_eqb b a.
Proof.
  destruct (str_eqb a b) eqn:E.
  - apply str_eqb_eq in E. subst. symmetry. apply str_eqb_refl.
  - destruct (str_eqb b a) eqn:E'; [|reflexivity].
    apply str_eqb_eq in E'. subst. now rewrite str_eqb_refl in E.
Qed.

Lemma includes_add_id (owned : list jsstring) (id x : jsstring) :
  includes (add_id owned id) x = includes owned x || str_eqb id x.
Proof.
  unfold add_id. destruct (includes owned id) eqn:E.
  - destruct (str_eqb id x) eqn:Ex; [|now rewrite orb_false_r].
    apply str_eqb_eq in Ex. subst. now rewrite E.
  - unfold includes. rewrite existsb_app. cbn [existsb].
    now rewrite orb_false_r.
Qed.

Lemma includes_remove_id (owned : list jsstring) (id x : jsstring) :
  includes (remove_id owned id) x = includes owned x && negb (str_eqb x id).
Proof.
  unfold remove_id, includes.
  induction owned as [|y owned IH]; [reflexivity|].
  cbn [filter existsb]. destruct (str_eqb y id) eqn:Ey; cbn [negb].
  - rewrite IH. apply str_eqb_eq in Ey. subst y.
    destruct (str_eqb id x) eqn:Ex; [|reflexivity].
    rewrite str_eqb_sym, Ex. cbn [negb orb]. now rewrite !andb_false_r.
  - cbn [existsb]. rewrite IH.
    destruct (str_eqb y x) eqn:Ex; [|reflexivity].
    apply str_eqb_eq in Ex. subst y. rewrite Ey. cbn [orb negb].
    now rewrite andb_true_r.
Qed.

Lemma run_check_ownership (P : platform) (req : request)
  (owned : list jsstring)
  {W : Type} (respond : W -> fetch_req -> fetch_outcome * W) (w : W) :
  owned_gists P req = Some owned ->
  run respond (check_ownership_GET P req) w
  = (Some (Response_json (OwnedBody (includes owned (req_params_id req)))
             200), w).
Proof.
  intros Howned. unfold check_ownership_GET.
  now rewrite run_try_catch, run_bind, run_lift, Howned.
Qed.




(** X11: save, then check ownership. When a save answers with
    [{url, id, updated}] and the browser sends the cookie of its
    [Set-Cookie] back (the platform reading back what it wrote), the
    check-ownership route answers [owned: true] for the saved ID, and for
    any other ID it answers as the list before the save does; it asks the
    remote nothing. *)
Theorem save_then_check_ownership
  (P : platform) (e : env) (req : request)
  (W : Type) (respond : W -> fetch_req -> fetch_outcome * W) (w w' : W)
  (resp : http_response) (url id : jsstring) (upd : bool)
  (owned : list jsstring) (h : jsstring)
  (before : option jsstring) (req2 : request) (w2 : W) :
  run respond (save_POST P e req) w = (Some resp, w') ->
  resp_body resp = SavedBody url id upd ->
  resp_set_cookie resp = Some h ->
  owned_gists P req = Some owned ->
  reads_back P (add_id owned id) ->
  req_cookie req2 = Some (cookie_header before (browser_cookie h)) ->
  run respond (check_ownership_GET P req2) w2
  = (Some (Response_json
             (OwnedBody (includes owned (req_params_id req2)
                         || str_eqb id (req_params_id req2))) 200), w2)
  /\ (req_params_id req2 = id ->
      run respond (check_ownership_GET P req2) w2
      = (Some (Response_json (OwnedBody true) 200), w2)).
Proof.
  intros Hrun Hbody Hh Howned Hback Hreq2.
  destruct (run_leaves respond _ _ (save_success_leaves P e req)
              w resp w' Hrun url id upd Hbody)
    as (owned' & Howned' & _ & Hcookie).
  assert (owned' = owned) by congruence. subst owned'.
  assert (h = set_cookie_header P (add_id owned id)) by congruence. subst h.
  rewrite browser_cookie_set_cookie in Hreq2 by apply Hback.
  pose proof (owned_gists_cookie_header P _ before req2 Hback Hreq2) as Hread.
  assert (Hcheck : run respond (check_ownership_GET P req2) w2
                   = (Some (Response_json
                              (OwnedBody (includes owned (req_params_id req2)
                                          || str_eqb id (req_params_id req2)))
                              200), w2)).
  { rewrite (run_check_ownership P req2 _ respond w2 Hread).
    now rewrite includes_add_id. }
  split; [exact Hcheck|].
  intros Hid. rewrite Hcheck, Hid, str_eqb_refl, orb_true_r. reflexivity.
Qed.

Lemma save_then_check_ownership_witness :
  run Reference.scripted
    (check_ownership_GET Reference.P
       (Sample.about (u "abc")
          (Some (u "md2slides_owned=%5B%22old%22%2C%22abc%22%5D"))))
    []
  = (Some (Response_json (OwnedBody true) 200), []).
Proof.
  exact (proj2
           (save_then_check_ownership Reference.P Sample.e Sample.save_stale
              (list fetch_outcome) Reference.scripted
              [Reply (Sample.refused 404);
               Reply (Sample.answered 201 (Sample.gist (u "abc") []))]
              []
              {| resp_status := 200;
                 resp_set_cookie :=
                   Some (u "md2slides_owned=%5B%22old%22%2C%22abc%22%5D; Path=/; Max-Age=31536000; SameSite=Lax");
                 resp_body := SavedBody (u "https://gist.github.com/abc")
                                (u "abc") false |}
              (u "https://gist.github.com/abc") (u "abc") false
              [u "old"]
              (u "md2slides_owned=%5B%22old%22%2C%22abc%22%5D; Path=/; Max-Age=31536000; SameSite=Lax")
              None
              (Sample.about (u "abc")
                 (Some (u "md2slides_owned=%5B%22old%22%2C%22abc%22%5D")))
              []
              eq_refl eq_refl eq_refl eq_refl reference_reads_back_sample
              eq_refl)
           eq_refl).
Defined.

Lemma reference_reads_back_old : reads_back Reference.P [u "old"].
Proof. repeat split. Qed.

(** X12: delete, then check ownership. When a delete answers
    [{success: true}] and the browser sends the cookie of its [Set-Cookie]
    back (the platform reading back what it wrote), the check-ownership
    route answers [owned: false] for the deleted ID and answers for every
    other ID as the list before the delete does. *)
Theorem delete_then_check_ownership
  (P : platform) (e : env) (req : request)
  (W : Type) (respond : W -> fetch_req -> fetch_outcome * W) (w w' : W)
  (resp : http_response) (owned : list jsstring) (h : jsstring)
  (before : option jsstring) (req2 : request) (w2 : W) :
  run respond (delete_DELETE P e req) w = (Some resp, w') ->
  resp_body resp = SuccessBody ->
  resp_set_cookie resp = Some h ->
  owned_gists P req = Some owned ->
  reads_back P (remove_id owned (req_params_id req)) ->
  req_cookie req2 = Some (cookie_header before (browser_cookie h)) ->
  run respond (check_ownership_GET P req2) w2
  = (Some (Response_json
             (OwnedBody (includes owned (req_params_id req2)
                         && negb (str_eqb (req_params_id req2)
                                    (req_params_id req)))) 200), w2)
  /\ (req_params_id req2 = req_params_id req ->
      run respond (check_ownership_GET P req2) w2
      = (Some (Response_json (OwnedBody false) 200), w2)).
Proof.
  intros Hrun Hbody Hh Howned Hback Hreq2.
  destruct (run_leaves respond _ _ (delete_success_leaves P e req)
              w resp w' Hrun Hbody)
    as (owned' & Howned' & _ & Hcookie).
  assert (owned' = owned) by congruence. subst owned'.
  assert (h = set_cookie_header P (remove_id owned (req_params_id req)))
    by congruence.
  subst h.
  rewrite browser_cookie_set_cookie in Hreq2 by apply Hback.
  pose proof (owned_gists_cookie_header P _ before req2 Hback Hreq2) as Hread.
  assert (Hcheck : run respond (check_ownership_GET P req2) w2
                   = (Some (Response_json
                              (OwnedBody
                                 (includes owned (req_params_id req2)
                                  && negb (str_eqb (req_params_id req2)
                                             (req_params_id req)))) 200),
                      w2)).
  { rewrite (run_check_ownership P req2 _ respond w2 Hread).
    now rewrite includes_remove_id. }
  split; [exact Hcheck|].
  intros Hid. rewrite Hcheck, Hid, str_eqb_refl. cbn [negb].
  now rewrite andb_false_r.
Qed.

Lemma delete_then_check_ownership_witness :
  run Reference.scripted
    (check_ownership_GET Reference.P
       (Sample.about (u "abc") (Some (u "md2slides_owned=%5B%22old%22%5D"))))
    []
  = (Some (Response_json (OwnedBody false) 200), []).
Proof.
  exact (proj2
           (delete_then_check_ownership Reference.P Sample.e
              (Sample.about (u "abc")
                 (Some (u "md2slides_owned=%5B%22old%22%2C%22abc%22%5D")))
              (list fetch_outcome) Reference.scripted
              [Reply (Sample.refused 204)] []
              {| resp_status := 200;
                 resp_set_cookie :=
                   Some (u "md2slides_owned=%5B%22old%22%5D; Path=/; Max-Age=31536000; SameSite=Lax");
                 resp_body := SuccessBody |}
              [u "old"; u "abc"]
              (u "md2slides_owned=%5B%22old%22%5D; Path=/; Max-Age=31536000; SameSite=Lax")
              None
              (Sample.about (u "abc")
                 (Some (u "md2slides_owned=%5B%22old%22%5D")))
              []
              eq_refl eq_refl eq_refl eq_refl reference_reads_back_old
              eq_refl)
           eq_refl).
Defined.

(** ** The requests the routes send *)

Lemma requests_bind {A B : Type} (Q : fetch_req -> Prop) (p : prog A)
  (f : A -> prog B) :
  requests Q p -> (forall a, requests Q (f a)) -> requests Q (bind p f).
Proof.
  intros Hp Hf. induction p as [a| |r k IH]; cbn [bind requests] in *; auto.
  destruct Hp as [Hr Hk]. split; auto.
Qed.

Lemma requests_bind_lift {A B : Type} (Q : fetch_req -> Prop) (x : option A)
  (f : A -> prog B) :
  (forall a, x = Some a -> requests Q (f a)) -> requests Q (bind (lift x) f).
Proof. intros Hf. destruct x as [a|]; cbn; auto. Qed.

Lemma requests_try_catch {A : Type} (Q : fetch_req -> Prop)
  (p handler : prog A) :
  requests Q p -> requests Q handler -> requests Q (try_catch p handler).
Proof.
  intros Hp Hh. induction p as [a| |r k IH]; cbn [try_catch requests] in *;
    auto.
  destruct Hp as [Hr Hk]. split; auto.
Qed.

Lemma requests_fetch (Q : fetch_req -> Prop) (r : fetch_req) :
  Q r -> requests Q (fetch r).
Proof. intros Hr. split; [assumption|]. now intros [|rp]. Qed.

Lemma requests_Promise_all {A : Type} (Q : fetch_req -> Prop)
  (ps : list (prog A)) :
  Forall (requests Q) ps -> requests Q (Promise_all ps).
Proof.
  induction 1 as [|p ps Hp _ IH]; [exact I|].
  cbn [Promise_all]. apply requests_bind; [assumption|]. intros a.
  apply requests_bind; [assumption|]. intros l. exact I.
Qed.

(** X13: what the routes send to the gist API. Without a credential no
    route sends anything, and the check-ownership route never does. Every
    request carries [Authorization: token <credential>]. The save route
    sends only a POST to the collection or a PATCH to the gist named in the
    body, both with the gist data of the body; the list and load routes
    send only GETs, for IDs of the cookie and for the ID of the path; the
    delete route sends only a DELETE for the ID of the path. *)
Theorem routes_send_only_their_requests
  (P : platform) (e : env) (rt : route) (req : request) :
  requests (route_request P e rt req) (handle P e rt req).
Proof.
  destruct (truthy (GITHUB_TOKEN e)) eqn:Htok.
  2:{ destruct rt; cbn [handle];
        unfold save_POST, list_GET, delete_DELETE, load_GET,
          check_ownership_GET;
        rewrite ?Htok; cbn [negb requests]; try exact I.
      apply requests_try_catch; [|exact I].
      apply requests_bind_lift. intros; exact I. }
  destruct rt; cbn [handle].
  - unfold save_POST. rewrite Htok. cbn [negb].
    apply requests_try_catch; [|exact I].
    apply requests_bind_lift. intros b Hb.
    assert (Hcreate : requests (route_request P e SaveRoute req)
                        (fetch (create_req e (make_gistData e b)))).
    { apply requests_fetch. split; [assumption|split; [reflexivity|]].
      exists b. split; [assumption|split; [reflexivity|]]. now left. }
    apply requests_bind.
    + destruct (truthy_opt (gistId b)) eqn:Hg.
      * apply requests_bind.
        -- apply requests_fetch. split; [assumption|split; [reflexivity|]].
           exists b. split; [assumption|split; [reflexivity|]]. right.
           split; [reflexivity|].
           destruct (gistId b) as [g|]; [|discriminate].
           exists g. cbn [truthy_opt] in Hg. cbn [update_req url or_else].
           rewrite Hg. auto.
        -- intros r. destruct (negb (ok r)); [|exact I].
           apply requests_bind; [assumption|]. intros; exact I.
      * apply requests_bind; [assumption|]. intros; exact I.
    + intros [response fin]. destruct (negb (ok response)).
      * apply requests_bind_lift. intros; exact I.
      * apply requests_bind_lift. intros result _.
        apply requests_bind_lift. intros; exact I.
  - unfold list_GET. rewrite Htok. cbn [negb].
    apply requests_try_catch; [|exact I].
    apply requests_bind_lift. intros owned Howned.
    destruct (length owned =? 0)%nat; [exact I|].
    apply requests_bind; [|intros; exact I].
    apply requests_Promise_all. apply Forall_map, Forall_forall.
    intros id Hid. unfold list_entry.
    apply requests_try_catch; [|exact I].
    apply requests_bind.
    + apply requests_fetch. split; [assumption|split; [reflexivity|]].
      split; [reflexivity|split; [reflexivity|]]. now exists owned, id.
    + intros r. destruct (negb (ok r)); [exact I|].
      apply requests_bind_lift. intros; exact I.
  - unfold delete_DELETE. rewrite Htok. cbn [negb].
    apply requests_try_catch; [|exact I].
    apply requests_bind.
    + apply requests_fetch. repeat split; try assumption; reflexivity.
    + intros r. destruct (negb (ok r) && negb (status r =? 404)); [exact I|].
      apply requests_bind_lift. intros; exact I.
  - unfold check_ownership_GET.
    apply requests_try_catch; [|exact I].
    apply requests_bind_lift. intros; exact I.
  - unfold load_GET. rewrite Htok. cbn [negb].
    apply requests_try_catch; [|exact I].
    apply requests_bind.
    + apply requests_fetch. repeat split; try assumption; reflexivity.
    + intros r. destruct (negb (ok r)); [exact I|].
      apply requests_bind_lift. intros; exact I.
Qed.


(** ** The other paths of save and load *)

(** X14: a save that names a gist whose update is answered with a success
    status asks the remote once, answers 200 with [updated: true], the URL
    of the reply and the ID the request named (whatever ID the reply
    carries), and sets the cookie to the list read plus that ID, owned
    before or not. *)
Theorem save_update_success
  (P : platform) (e : env) (req : request) (b : save_body) (g : jsstring)
  (W : Type) (respond : W -> fetch_req -> fetch_outcome * W) (w w1 : W)
  (r : reply) (result : gist_json) (owned : list jsstring) :
  truthy (GITHUB_TOKEN e) = true ->
  req_json req = Some b ->
  gistId b = Some g ->
  truthy g = true ->
  respond w (update_req e g (make_gistData e b)) = (Reply r, w1) ->
  ok r = true ->
  json r = Some result ->
  owned_gists P req = Some owned ->
  run respond (save_POST P e req) w
  = (Some {| resp_status := 200;
             resp_set_cookie := Some (set_cookie_header P (add_id owned g));
             resp_body := SavedBody (gist_html_url result) g true |}, w1).
Proof.
  intros Htok Hjson Hid Hg Hupd Hok Hres Howned.
  unfold save_POST. rewrite Htok. cbn [negb].
  rewrite run_try_catch, run_bind, run_lift, Hjson. cbn beta iota.
  rewrite run_bind, Hid. cbn [truthy_opt or_else]. rewrite Hg.
  rewrite run_bind, run_fetch, Hupd. cbn beta iota.
  rewrite Hok. cbn [negb run].
  rewrite Hok. cbn [negb].
  rewrite run_bind, run_lift, Hres. cbn beta iota.
  rewrite run_bind, run_lift, Howned. cbn [run or_else truthy_opt].
  rewrite ?Hg. unfold add_id. now destruct (includes owned g).
Qed.

Lemma save_update_success_witness :
  run Reference.scripted (save_POST Reference.P Sample.e Sample.save_stale)
    [Reply (Sample.answered 200 (Sample.gist (u "other") []))]
  = (Some {| resp_status := 200;
             resp_set_cookie :=
               Some (u "md2slides_owned=%5B%22old%22%2C%22stale%22%5D; Path=/; Max-Age=31536000; SameSite=Lax");
             resp_body := SavedBody (u "https://gist.github.com/other")
                            (u "stale") true |}, []).
Proof.
  exact (save_update_success Reference.P Sample.e Sample.save_stale
           (Sample.deck (Some (u "stale"))) (u "stale")
           (list fetch_outcome) Reference.scripted
           [Reply (Sample.answered 200 (Sample.gist (u "other") []))] []
           (Sample.answered 200 (Sample.gist (u "other") []))
           (Sample.gist (u "other") []) [u "old"]
           eq_refl eq_refl eq_refl eq_refl eq_refl eq_refl eq_refl eq_refl).
Defined.



Lemma title_of_truthy (P : platform) (files : list (jsstring * jsstring)) :
  truthy (title_of P files) = true.
Proof.
  unfold title_of.
  destruct (prop_get (u "metadata.json") files) as [c|]; [|reflexivity].
  destruct (JSON_parse_title P c) as [[t|]|]; try reflexivity.
  cbn [or_else]. now destruct (truthy t) eqn:E.
Qed.



(** * The editor and the routes *)

Lemma run_check_ownership_any (P : platform) (req : request)
  {W : Type} (respond : W -> fetch_req -> fetch_outcome * W) (w : W) :
  run respond (check_ownership_GET P req) w
  = (Some (Response_json
             (OwnedBody match owned_gists P req with
                        | Some owned => includes owned (req_params_id req)
                        | None => false
                        end) 200), w).
Proof.
  unfold check_ownership_GET. rewrite run_try_catch, run_bind, run_lift.
  now destruct (owned_gists P req).
Qed.




(** X18: Share. On an editor bound to a gist, Share asks nothing and shows
    the gist's share URL. On an unbound editor it sends one save that names
    no gist: when the gist is created and the response carries its ID, the
    editor is bound to that ID, shows its share URL and moves the location
    to it; when the create is refused or the remote unreachable, the editor
    is left exactly as it was and the location is not touched. *)
Theorem share_binds_created_gist
  (P : platform) (e : env) (origin : jsstring) (cookie : option jsstring)
  (st : EditorPage.state)
  (W : Type) (respond : W -> fetch_req -> fetch_outcome * W) (w : W) :
  truthy (GITHUB_TOKEN e) = true ->
  (forall g,
      EditorPage.currentGistId st = Some g -> truthy g = true ->
      run respond (EditorPage.handleShare P e origin cookie st) w
      = (Some ({| EditorPage.st_content := EditorPage.st_content st;
                  EditorPage.st_title := EditorPage.st_title st;
                  EditorPage.currentGistId := Some g;
                  EditorPage.publishedUrl := EditorPage.shareUrl origin g;
                  EditorPage.showPublishModal := true |}, None), w))
  /\ (forall o w1,
        truthy_opt (EditorPage.currentGistId st) = false ->
        respond w
          (create_req e
             (make_gistData e
                {| title := Some (EditorPage.st_title st);
                   content := Some (EditorPage.st_content st);
                   gistId := EditorPage.currentGistId st |}))
        = (o, w1) ->
        (forall r result owned,
            o = Reply r -> ok r = true -> json r = Some result ->
            owned_gists P (EditorPage.save_request cookie st) = Some owned ->
            truthy (gist_id result) = true ->
            run respond (EditorPage.handleShare P e origin cookie st) w
            = (Some ({| EditorPage.st_content := EditorPage.st_content st;
                        EditorPage.st_title := EditorPage.st_title st;
                        EditorPage.currentGistId := Some (gist_id result);
                        EditorPage.publishedUrl :=
                          EditorPage.shareUrl origin (gist_id result);
                        EditorPage.showPublishModal := true |},
                     Some (u "/editor?gist=" ++ gist_id result)), w1))
        /\ (o = NetworkError
            \/ (exists r t, o = Reply r /\ ok r = false /\ text r = Some t) ->
            run respond (EditorPage.handleShare P e origin cookie st) w
            = (Some (st, None), w1))).
Proof.
  intros Htok. split.
  - intros g Hg Htr. unfold EditorPage.handleShare.
    rewrite Hg. cbn [truthy_opt or_else]. now rewrite Htr.
  - intros o w1 Hid Hcreate.
    assert (Hrun : run respond (EditorPage.handleShare P e origin cookie st) w
                   = run respond (EditorPage.handleShare P e origin cookie st)
                       w) by reflexivity.
    unfold EditorPage.handleShare at 2 in Hrun. rewrite Hid in Hrun.
    rewrite run_try_catch, run_bind in Hrun.
    unfold save_POST at 1 in Hrun. rewrite Htok in Hrun. cbn [negb] in Hrun.
    rewrite run_try_catch, run_bind, run_lift in Hrun.
    cbn [EditorPage.save_request req_json] in Hrun. cbn beta iota in Hrun.
    rewrite run_bind in Hrun. cbn [gistId] in Hrun. rewrite Hid in Hrun.
    rewrite run_bind, run_fetch, Hcreate in Hrun.
    assert (Hfin : forall y, or_else (EditorPage.currentGistId st) y = y).
    { intros y. destruct (EditorPage.currentGistId st) as [g|]; [|reflexivity].
      cbn [truthy_opt] in Hid. cbn [or_else]. now rewrite Hid. }
    split.
    + intros r result owned -> Hok Hres Howned Htr.
      rewrite Hrun. cbn [run]. rewrite Hok. cbn [negb].
      rewrite run_bind, run_lift, Hres. cbn beta iota.
      rewrite run_bind, run_lift.
      change {| req_cookie := cookie;
                req_json := Some {| title := Some (EditorPage.st_title st);
                                    content := Some (EditorPage.st_content st);
                                    gistId := EditorPage.currentGistId st |};
                req_params_id := [] |}
        with (EditorPage.save_request cookie st).
      rewrite Howned. cbn [run resp_body json_id truthy_opt or_else].
      rewrite !Hfin, Htr. reflexivity.
    + intros [->|(r & t & -> & Hok & Ht)].
      * now rewrite Hrun.
      * rewrite Hrun. cbn [run]. rewrite Hok. cbn [negb].
        now rewrite run_bind, run_lift, Ht.
Qed.

Lemma share_binds_created_gist_witness :
  run Reference.scripted
    (EditorPage.handleShare Reference.P Sample.e (u "https://md2slides.app")
       None Sample.unbound)
    [Reply (Sample.answered 201 (Sample.gist (u "abc") []))]
  = (Some ({| EditorPage.st_content := u "# Deck";
              EditorPage.st_title := u "Deck";
              EditorPage.currentGistId := Some (u "abc");
              EditorPage.publishedUrl :=
                u "https://md2slides.app/#/editor?gist=abc";
              EditorPage.showPublishModal := true |},
           Some (u "/editor?gist=abc")), []).
Proof.
  exact (proj1
           (proj2 (share_binds_created_gist Reference.P Sample.e
                     (u "https://md2slides.app") None Sample.unbound
                     (list fetch_outcome) Reference.scripted
                     [Reply (Sample.answered 201 (Sample.gist (u "abc") []))]
                     eq_refl)
              (Reply (Sample.answered 201 (Sample.gist (u "abc") []))) []
              eq_refl eq_refl)
           (Sample.answered 201 (Sample.gist (u "abc") []))
           (Sample.gist (u "abc") []) []
           eq_refl eq_refl eq_refl eq_refl eq_refl).
Defined.

(** X19: deleting from the landing page's list. Once the remote has
    answered the delete, the page drops the entries of that gist, and only
    those, exactly when the delete route answered with success: that is,
    with the cookie readable, when the remote answered with a success status
    or 404 (a gist already gone upstream disappears from the list too). When
    the remote refuses otherwise or is unreachable, and also when the remote
    deleted the gist but the cookie cannot be read, the list is left as it
    was. *)
Theorem landing_delete_updates_list
  (P : platform) (e : env) (cookie : option jsstring) (gistId : jsstring)
  (userGists : list gist_entry)
  (W : Type) (respond : W -> fetch_req -> fetch_outcome * W) (w w1 : W)
  (o : fetch_outcome) :
  truthy (GITHUB_TOKEN e) = true ->
  respond w (delete_req e gistId) = (o, w1) ->
  let req := {| req_cookie := cookie; req_json := None;
                req_params_id := gistId |} in
  (forall r owned,
      o = Reply r -> ok r = true \/ status r = 404 ->
      owned_gists P req = Some owned ->
      exists kept,
        run respond
          (LandingPageGists.handleDeleteGist P e cookie gistId userGists) w
        = (Some kept, w1)
        /\ (forall g, In g kept <-> In g userGists /\ entry_id g <> gistId))
  /\ (o = NetworkError
      \/ (exists r, o = Reply r /\ ok r = false /\ status r <> 404)
      \/ (exists r, o = Reply r /\ owned_gists P req = None) ->
      run respond
        (LandingPageGists.handleDeleteGist P e cookie gistId userGists) w
      = (Some userGists, w1)).
Proof.
  intros Htok Hdel req.
  assert (Hrun : run respond
                   (LandingPageGists.handleDeleteGist P e cookie gistId
                      userGists) w
                 = run respond
                     (LandingPageGists.handleDeleteGist P e cookie gistId
                        userGists) w) by reflexivity.
  unfold LandingPageGists.handleDeleteGist at 2 in Hrun.
  rewrite run_try_catch, run_bind in Hrun.
  unfold delete_DELETE at 1 in Hrun. rewrite Htok in Hrun.
  cbn [negb req_params_id] in Hrun.
  rewrite run_try_catch, run_bind, run_fetch, Hdel in Hrun.
  fold req in Hrun.
  split.
  - intros r owned -> Hgood Howned.
    eexists. split.
    + rewrite Hrun. cbn beta iota.
      replace (negb (ok r) && negb (status r =? 404)) with false.
      * rewrite run_bind, run_lift, Howned. reflexivity.
      * destruct Hgood as [->| ->]; [reflexivity|].
        cbn. now rewrite andb_false_r.
    + intros g. rewrite filter_In. split.
      * intros [Hin Hne]. split; [assumption|].
        intros Heq. apply str_eqb_eq in Heq. now rewrite Heq in Hne.
      * intros [Hin Hne]. split; [assumption|].
        destruct (str_eqb (entry_id g) gistId) eqn:E; [|reflexivity].
        apply str_eqb_eq in E. contradiction.
  - intros [->|[(r & -> & Hok & H404)|(r & -> & Hnone)]].
    + now rewrite Hrun.
    + rewrite Hrun. cbn beta iota. rewrite Hok.
      apply N.eqb_neq in H404. rewrite H404. cbn [negb andb run].
      unfold response_ok, ok in *. cbn [Response_json resp_status].
      now rewrite Hok.
    + rewrite Hrun. cbn beta iota.
      destruct (negb (ok r) && negb (status r =? 404)) eqn:E.
      * cbn [run]. unfold response_ok, ok in *.
        cbn [Response_json resp_status].
        apply andb_true_iff in E as [E _]. apply negb_true_iff in E.
        now rewrite E.
      * now rewrite run_bind, run_lift, Hnone.
Qed.

Lemma landing_delete_updates_list_witness :
  exists kept,
    run Reference.scripted
      (LandingPageGists.handleDeleteGist Reference.P Sample.e
         (Some (u "md2slides_owned=%5B%22old%22%2C%22abc%22%5D")) (u "abc")
         [Sample.entry (u "old") (u "Old");
          Sample.entry (u "abc") (u "Deck")])
      [Reply (Sample.refused 404)]
    = (Some kept, [])
    /\ (forall g,
           In g kept <->
           In g [Sample.entry (u "old") (u "Old");
                 Sample.entry (u "abc") (u "Deck")]
           /\ entry_id g <> u "abc").
Proof.
  exact (proj1
           (landing_delete_updates_list Reference.P Sample.e
              (Some (u "md2slides_owned=%5B%22old%22%2C%22abc%22%5D"))
              (u "abc")
              [Sample.entry (u "old") (u "Old");
               Sample.entry (u "abc") (u "Deck")]
              (list fetch_outcome) Reference.scripted
              [Reply (Sample.refused 404)] [] (Reply (Sample.refused 404))
              eq_refl eq_refl)
           (Sample.refused 404) [u "old"; u "abc"]
           eq_refl (or_intror eq_refl) eq_refl).
Defined.
